(** * Infinity Grid Generator: the parameter-axis execution layer

    A shallow embedding of [scripts/infinity_grid.py]: the value-mode helpers
    (model, VAE, prompt replace), the hooks the script installs into the grid
    engine (call init, param add, apply, pre-dry, post-dry, count-steps), the
    [SettingsFixer] context manager and the validation prologue of
    [Script.run], followed by the properties stated about them.

    Python objects that the hooks mutate in place are passed in and handed
    back explicitly; an operation that can raise returns a [result], also
    where it is the backend's, the file system's or the image library's. *)

From Stdlib Require Import ZArith Ascii String List Lia Floats.
From stdpp Require Import base option list gmap strings pretty.

Local Open Scope string_scope.
Local Open Scope list_scope.
Local Open Scope Z_scope.

(** ** The fragment of Python the script relies on *)

Module Py.

(** Exceptions: the script itself raises [RuntimeError] only; the others
    come from the builtins and libraries it calls, [BackendError] from
    inside the backend. *)
Inductive exn : Type :=
| RuntimeError (msg : string)
| ValueError
| TypeError
| IndexError
| AttributeError
| OSError
| BackendError (msg : string).

Inductive result (A : Type) : Type :=
| Ok (a : A)
| Raise (e : exn).
Arguments Ok {A} a.
Arguments Raise {A} e.

Definition bind {A B : Type} (r : result A) (k : A -> result B) : result B :=
  match r with
  | Ok a => k a
  | Raise e => Raise e
  end.

Definition succeeded {A : Type} (r : result A) : bool :=
  match r with Ok _ => true | Raise _ => false end.

(** An axis value as the engine hands it to the hooks: the text read from
    the grid file, or the integer or boolean it was converted to. *)
Inductive value : Type :=
| VBool (b : bool)
| VInt (z : Z)
| VStr (s : string).

(** [bool(v)]: the truth value used by [if v:]. *)
Definition truthy (v : value) : bool :=
  match v with
  | VBool b => b
  | VInt z => negb (z =? 0)
  | VStr s => negb (String.eqb s "")
  end.

(** [x or d] on an optional integer: [None] and [0] are both false. *)
Definition or_int (x : option Z) (d : Z) : Z :=
  match x with
  | Some z => if z =? 0 then d else z
  | None => d
  end.

(** Characters are code points below 256; [is_space] is [str.isspace] there. *)
Definition is_space (c : ascii) : bool :=
  let n := N_of_ascii c in
  ((9 <=? n) && (n <=? 13) || (28 <=? n) && (n <=? 32)
   || (n =? 133) || (n =? 160))%N.

Fixpoint lstrip (s : string) : string :=
  match s with
  | String c s' => if is_space c then lstrip s' else s
  | EmptyString => EmptyString
  end.

Fixpoint rstrip (s : string) : string :=
  match s with
  | String c s' =>
      match rstrip s' with
      | EmptyString => if is_space c then EmptyString else String c EmptyString
      | r => String c r
      end
  | EmptyString => EmptyString
  end.

(** [s.strip()] *)
Definition strip (s : string) : string := rstrip (lstrip s).

Definition digit_of (c : ascii) : option Z :=
  let n := N_of_ascii c in
  if ((48 <=? n) && (n <=? 57))%N then Some (Z.of_N n - 48) else None.

(** The digits of a decimal literal; single underscores may separate
    digits, as [int] accepts them. *)
Fixpoint digits (acc : Z) (after_digit : bool) (s : string) : option Z :=
  match s with
  | EmptyString => if after_digit then Some acc else None
  | String c s' =>
      match digit_of c with
      | Some d => digits (10 * acc + d) true s'
      | None =>
          if (Ascii.eqb c "_" && after_digit)%bool then digits acc false s'
          else None
      end
  end.

(** The blanks [int] allows around a literal: the ASCII ones and, beyond
    ASCII, the spaces U+0085 and U+00A0; the separators U+001C to U+001F,
    which [str.strip] removes, are not among them. *)
Definition is_int_space (c : ascii) : bool :=
  let n := N_of_ascii c in
  ((9 <=? n) && (n <=? 13) || (n =? 32) || (n =? 133) || (n =? 160))%N.

Fixpoint int_lstrip (s : string) : string :=
  match s with
  | String c s' => if is_int_space c then int_lstrip s' else s
  | EmptyString => EmptyString
  end.

Fixpoint int_rstrip (s : string) : string :=
  match s with
  | String c s' =>
      match int_rstrip s' with
      | EmptyString => if is_int_space c then EmptyString else String c EmptyString
      | r => String c r
      end
  | EmptyString => EmptyString
  end.

Fixpoint digit_count (s : string) : nat :=
  match s with
  | EmptyString => 0
  | String c s' =>
      match digit_of c with
      | Some _ => S (digit_count s')
      | None => digit_count s'
      end
  end.

(** [sys.get_int_max_str_digits()], at its default: a literal with more
    digits is refused. *)
Definition int_max_str_digits : nat := 4300.

Definition int_of_string (s : string) : option Z :=
  let literal := int_rstrip (int_lstrip s) in
  if (int_max_str_digits <? digit_count literal)%nat then None
  else
    match literal with
    | String "-" s' => Z.opp <$> digits 0 false s'
    | String "+" s' => digits 0 false s'
    | s' => digits 0 false s'
    end.

(** [int(v)] *)
Definition int (v : value) : result Z :=
  match v with
  | VInt z => Ok z
  | VBool b => Ok (if b then 1 else 0)
  | VStr s =>
      match int_of_string s with
      | Some z => Ok z
      | None => Raise ValueError
      end
  end.

(** ** Strings *)

Fixpoint starts_with (pre s : string) : bool :=
  match pre, s with
  | EmptyString, _ => true
  | String a pre', String b s' => Ascii.eqb a b && starts_with pre' s'
  | String _ _, EmptyString => false
  end.

(** [sub in s] *)
Fixpoint contains (sub s : string) : bool :=
  match s with
  | EmptyString => starts_with sub EmptyString
  | String _ s' => starts_with sub s || contains sub s'
  end.

(** The scan of [s.replace(old, new)] for a non-empty [old]: leftmost
    occurrences, not overlapping; [skip] counts the characters of the
    occurrence just replaced that are still to be passed over. *)
Fixpoint replace_from (old new : string) (skip : nat) (s : string) : string :=
  match s with
  | EmptyString => EmptyString
  | String c s' =>
      match skip with
      | S k => replace_from old new k s'
      | O =>
          if starts_with old s
          then new +:+ replace_from old new (String.length old - 1) s'
          else String c (replace_from old new 0 s')
      end
  end.

(** With an empty [old], [new] goes before every character and at the end. *)
Fixpoint intersperse_after (new s : string) : string :=
  match s with
  | EmptyString => EmptyString
  | String c s' => String c (new +:+ intersperse_after new s')
  end.

(** [s.replace(old, new)] *)
Definition replace (s old new : string) : string :=
  match old with
  | EmptyString => new +:+ intersperse_after new s
  | String _ _ => replace_from old new 0 s
  end.

(** The scan of [s.split(sep)] for a non-empty [sep]; the head of the
    result is the piece being read. *)
Fixpoint split_from (sep : string) (skip : nat) (s : string) : list string :=
  match s with
  | EmptyString => [EmptyString]
  | String c s' =>
      match skip with
      | S k => split_from sep k s'
      | O =>
          if starts_with sep s
          then EmptyString :: split_from sep (String.length sep - 1) s'
          else match split_from sep 0 s' with
               | piece :: rest => String c piece :: rest
               | [] => [String c EmptyString]
               end
      end
  end.

(** [s.split(sep)] for a non-empty [sep] *)
Definition split (s sep : string) : list string := split_from sep 0 s.

(** [s.split(c, maxsplit=1)] for a one-character separator *)
Fixpoint split_once (s : string) (c : ascii) : list string :=
  match s with
  | EmptyString => [EmptyString]
  | String a s' =>
      if Ascii.eqb a c then [EmptyString; s']
      else match split_once s' c with
           | piece :: rest => String a piece :: rest
           | [] => [String a EmptyString]
           end
  end.

(** [repr] of a string: single quotes unless the text has a single and no
    double quote; backslash, the quote in use and unprintable characters
    are escaped. *)
Definition hex_digit (n : N) : ascii :=
  ascii_of_N (if (n <? 10)%N then 48 + n else 87 + n)%N.

Definition printable (c : ascii) : bool :=
  let n := N_of_ascii c in
  ((32 <=? n) && (n <=? 126) || (161 <=? n) && negb (n =? 173))%N.

Definition escape_char (quote c : ascii) : string :=
  if Ascii.eqb c "\" then "\\"
  else if Ascii.eqb c quote then String "\" (String quote EmptyString)
  else if Ascii.eqb c "009" then "\t"
  else if Ascii.eqb c "010" then "\n"
  else if Ascii.eqb c "013" then "\r"
  else if printable c then String c EmptyString
  else let n := N_of_ascii c in
       String "\" (String "x" (String (hex_digit (n / 16)) (String (hex_digit (n mod 16)) EmptyString))).

Fixpoint escape (quote : ascii) (s : string) : string :=
  match s with
  | EmptyString => EmptyString
  | String c s' => escape_char quote c +:+ escape quote s'
  end.

Definition repr (s : string) : string :=
  let quote : ascii :=
    if contains "'" s && negb (contains (String "034" EmptyString) s)
    then "034"%char else "'"%char in
  String quote (escape quote s) +:+ String quote EmptyString.

Fixpoint join (sep : string) (l : list string) : string :=
  match l with
  | [] => EmptyString
  | [x] => x
  | x :: l' => x +:+ sep +:+ join sep l'
  end.

(** [str(l)] of a list of strings, as an f-string prints it *)
Definition str_of_list (l : list string) : string :=
  "[" +:+ join ", " (repr <$> l) +:+ "]".

(** ** Lists *)

(** [l[i]], negative indices counting from the end. *)
Definition getitem {A : Type} (l : list A) (i : Z) : result A :=
  let n := Z.of_nat (length l) in
  let j := if i <? 0 then i + n else i in
  if (0 <=? j) && (j <? n) then
    match l !! Z.to_nat j with
    | Some x => Ok x
    | None => Raise IndexError
    end
  else Raise IndexError.

(** [l[i] = x] *)
Definition setitem {A : Type} (l : list A) (i : Z) (x : A) : result (list A) :=
  let n := Z.of_nat (length l) in
  let j := if i <? 0 then i + n else i in
  if (0 <=? j) && (j <? n) then Ok (<[Z.to_nat j := x]> l)
  else Raise IndexError.

(** [x in l] for a list of strings *)
Definition member (x : string) (l : list string) : bool :=
  existsb (String.eqb x) l.

(** [for x in xs: body], on the state [S] the body mutates; the loop stops
    at the first exception, the mutations made so far stay. *)
Fixpoint for_each {X S : Type} (body : X -> S -> result unit * S)
    (xs : list X) (s : S) : result unit * S :=
  match xs with
  | [] => (Ok tt, s)
  | x :: xs' =>
      match body x s with
      | (Ok _, s') => for_each body xs' s'
      | (Raise e, s') => (Raise e, s')
      end
  end.

End Py.

Import Py.

(** [x ← r; k] runs [k] on the value of [r] and propagates what [r] raises. *)
#[global] Instance result_bind : MBind result := fun A B k r => Py.bind r k.
#[global] Instance result_ret : MRet result := fun A a => Ok a.

(** ** Objects of the backend and of the grid engine

    The generation request is the backend's processing object, with the
    attributes the script reads and writes.  An attribute that exists only
    on some requests, or only once a mode has set it, is an [option]. *)

Record Request : Type := mkRequest {
  seed : Z;
  subseed : Z;
  steps : Z;
  enable_hr : option bool;           (* absent on requests without a highres pass *)
  hr_second_pass_steps : option (option Z);   (* absent; else None or a count *)
  prompt : string;
  negative_prompt : string;
  width : Z;
  height : Z;
  n_iter : Z;
  batch_size : Z;
  do_not_save_samples : bool;
  do_not_save_grid : bool;
  outpath_grids : string;
  inf_grid_use_result_index : option Z;  (* set by the mode of that name *)
  inf_grid_out_width : option Z;
  inf_grid_out_height : option Z
}.

(** [hasattr(p, 'hr_second_pass_steps')] *)
Definition has_hr_second_pass_steps (p : Request) : bool :=
  match hr_second_pass_steps p with
  | Some _ => true
  | None => false
  end.

Definition with_seed (p : Request) (s : Z) : Request :=
  mkRequest s (subseed p) (steps p) (enable_hr p) (hr_second_pass_steps p)
    (prompt p) (negative_prompt p) (width p) (height p) (n_iter p)
    (batch_size p) (do_not_save_samples p) (do_not_save_grid p)
    (outpath_grids p) (inf_grid_use_result_index p) (inf_grid_out_width p)
    (inf_grid_out_height p).

Definition with_subseed (p : Request) (s : Z) : Request :=
  mkRequest (seed p) s (steps p) (enable_hr p) (hr_second_pass_steps p)
    (prompt p) (negative_prompt p) (width p) (height p) (n_iter p)
    (batch_size p) (do_not_save_samples p) (do_not_save_grid p)
    (outpath_grids p) (inf_grid_use_result_index p) (inf_grid_out_width p)
    (inf_grid_out_height p).

Definition with_prompts (p : Request) (pos neg : string) : Request :=
  mkRequest (seed p) (subseed p) (steps p) (enable_hr p)
    (hr_second_pass_steps p) pos neg (width p) (height p) (n_iter p)
    (batch_size p) (do_not_save_samples p) (do_not_save_grid p)
    (outpath_grids p) (inf_grid_use_result_index p) (inf_grid_out_width p)
    (inf_grid_out_height p).

(** [p.n_iter = 1; p.batch_size = 1; p.do_not_save_samples = True;
    p.do_not_save_grid = True] *)
Definition with_single_image (p : Request) : Request :=
  mkRequest (seed p) (subseed p) (steps p) (enable_hr p)
    (hr_second_pass_steps p) (prompt p) (negative_prompt p) (width p)
    (height p) 1 1 true true (outpath_grids p) (inf_grid_use_result_index p)
    (inf_grid_out_width p) (inf_grid_out_height p).

(** The shared configuration [opts], as far as the script touches it. *)
Record Opts : Type := mkOpts {
  sd_model_checkpoint : option string;
  sd_vae : option string;
  code_former_weight : float;
  face_restoration_model : option string
}.

(** An image the backend produced, and what the script makes of it. *)
Inductive Image : Type :=
| Produced (id : N) (ndarray : bool)
| FromArray (img : Image)
| Resized (img : Image) (w h : Z).

Definition is_ndarray (img : Image) : bool :=
  match img with
  | Produced _ b => b
  | _ => false
  end.

Record Processed : Type := mkProcessed {
  images : list Image;
  processed_seed : Z
}.

(** One coordinate of the grid: [set.params] maps a parameter name to its
    value; [set.data] and [set.filepath] describe and place the output. *)
Record GridSet : Type := mkGridSet {
  params : gmap string value;
  data : string;
  filepath : string
}.

(** The grid is shared by all its coordinates. *)
Record Grid : Type := mkGrid {
  min_width : option Z;
  min_height : option Z;
  initial_p : Request;
  format : string
}.

Definition with_min_width (g : Grid) (m : option Z) : Grid :=
  mkGrid m (min_height g) (initial_p g) (format g).

Definition with_min_height (g : Grid) (m : option Z) : Grid :=
  mkGrid (min_width g) m (initial_p g) (format g).

(** [SingleGridCall]: the part of it the hooks own. *)
Record SingleGridCall : Type := mkSingleGridCall {
  replacements : list value
}.

Record TempHolder : Type := mkTempHolder {
  old_codeformer_weight : float;
  old_face_restorer : option string;
  old_vae : option string;
  old_model : option string
}.

Record GridRunner : Type := mkGridRunner {
  runner_p : Request;               (* grid_runner.p *)
  temp : option TempHolder;
  grid : Grid
}.

(** Arguments [Script.run] passes on to [core.run_grid_gen]. *)
Record EngineArgs : Type := mkEngineArgs {
  engine_p : Request;
  engine_grid_file : string;
  engine_outpath : string;
  engine_output_file_path : string;
  engine_do_overwrite : bool;
  engine_fast_skip : bool;
  engine_generate_page : bool;
  engine_publish_gen_metadata : bool;
  engine_dry_run : bool;
  engine_manual_axes : option (list string);
  engine_skip_invalid : bool
}.

(** What leaves the script: calls into the backend with the configuration
    active at the time of the call, directories made, saves handed to a
    thread, and the start of the grid engine. *)
Inductive Event : Type :=
| ReloadModelWeights (active : Opts)
| ReloadVaeWeights (active : Opts)
| ProcessImages (p : Request) (active : Opts)
| MakeDirs (for_file : string)
| StartSave (img : Image) (file info extension prompt_text : string) (seed_used : Z)
| RunGridGen (args : EngineArgs).

(** The process-wide state: [opts], the backend catalogs, the state of the
    random generator behind [get_fixed_seed], the script's own globals
    [has_inited] and [Script.VALIDATE_REPLACE], and the events so far. *)
Record World : Type := mkWorld {
  opts : Opts;
  checkpoints_list : list string;    (* titles of sd_models.checkpoints_list *)
  vae_dict : list string;            (* keys of sd_vae.vae_dict *)
  random_state : N;
  has_inited : bool;
  VALIDATE_REPLACE : bool;
  trace : list Event
}.

Definition with_opts (w : World) (o : Opts) : World :=
  mkWorld o (checkpoints_list w) (vae_dict w) (random_state w) (has_inited w)
    (VALIDATE_REPLACE w) (trace w).

Definition with_random_state (w : World) (r : N) : World :=
  mkWorld (opts w) (checkpoints_list w) (vae_dict w) r (has_inited w)
    (VALIDATE_REPLACE w) (trace w).

Definition with_has_inited (w : World) (b : bool) : World :=
  mkWorld (opts w) (checkpoints_list w) (vae_dict w) (random_state w) b
    (VALIDATE_REPLACE w) (trace w).

Definition with_VALIDATE_REPLACE (w : World) (b : bool) : World :=
  mkWorld (opts w) (checkpoints_list w) (vae_dict w) (random_state w)
    (has_inited w) b (trace w).

Definition emit (e : Event) (w : World) : World :=
  mkWorld (opts w) (checkpoints_list w) (vae_dict w) (random_state w)
    (has_inited w) (VALIDATE_REPLACE w) (trace w ++ [e]).

(** [sd_models.reload_model_weights()] and [sd_vae.reload_vae_weights()]:
    the call is recorded; it returns and leaves [opts] as it is. *)
Definition reload_model_weights (w : World) : World :=
  emit (ReloadModelWeights (opts w)) w.

Definition reload_vae_weights (w : World) : World :=
  emit (ReloadVaeWeights (opts w)) w.

(** The helpers imported from [gridgencore] and the engine's entry point.
    Their code is not part of the script; the script is embedded over any
    implementation of them. *)
Class GridCore : Type := {
  clean_name : string -> string;
  clean_mode : string -> string;
  get_best_in_list : string -> list string -> option string;
  choose_better_file_name : string -> string -> string;
  run_grid_gen : EngineArgs -> World -> result (option Processed) * World
}.

(** What the post-dry hook asks of the file system and of the image
    library, each of which does its work or raises:
    [os.makedirs(os.path.dirname(file), exist_ok=True)], [Image.fromarray]
    on an array, and [img.resize] to a width and a height, which gives the
    new image. *)
Class Outside : Type := {
  makedirs : string -> result unit;
  fromarray : Image -> result Image;
  resize : Image -> Z -> Z -> result Image
}.

(** The backend operations whose outcome the script depends on:
    [processing.get_fixed_seed] with the random state it draws from,
    [process_images], which may change [opts] and may raise,
    [processing.create_infotext], which reads [opts] and may raise, and the
    constructor [Processed(p, images)]. *)
Class Backend : Type := {
  get_fixed_seed : Z -> N -> Z * N;
  process_images : Request -> Opts -> result Processed * Opts;
  create_infotext : Request -> Opts -> result string;
  new_processed : Request -> list Image -> Processed
}.

(** ** The script *)

Section Script.
Context `{!GridCore} `{!Outside} `{!Backend}.

(** *** Value mode helpers *)

Definition get_model_for (w : World) (name : string) : option string :=
  get_best_in_list name (checkpoints_list w).

Definition apply_model (p : Request) (v : string) (w : World) : World :=
  let o := opts w in
  let w := with_opts w (mkOpts (get_model_for w v) (sd_vae o)
                          (code_former_weight o) (face_restoration_model o)) in
  reload_model_weights w.

Definition clean_model (w : World) (p v : string) : result string :=
  let actual_model := get_model_for w v in
  match actual_model with
  | None =>
      Raise (RuntimeError
               ("Invalid parameter '" +:+ p +:+ "' as '" +:+ v
                +:+ "': model name unrecognized - valid "
                +:+ str_of_list (checkpoints_list w)))
  | Some actual_model => Ok (choose_better_file_name v actual_model)
  end.

Definition get_vae_for (w : World) (name : string) : option string :=
  get_best_in_list name (vae_dict w).

Definition apply_vae (p : Request) (v : string) (w : World) : World :=
  let vae_name := clean_name v in
  let vae_name :=
    if String.eqb vae_name "none" then Some "None"
    else if member vae_name ["auto"; "automatic"] then Some "Automatic"
    else get_vae_for w vae_name in
  let o := opts w in
  let w := with_opts w (mkOpts (sd_model_checkpoint o) vae_name
                          (code_former_weight o) (face_restoration_model o)) in
  reload_vae_weights w.

Definition clean_vae (w : World) (p v : string) : result string :=
  let vae_name := clean_name v in
  if member vae_name ["none"; "auto"; "automatic"] then Ok vae_name
  else
    let actual_vae := get_vae_for w vae_name in
    match actual_vae with
    | None =>
        Raise (RuntimeError
                 ("Invalid parameter '" +:+ p +:+ "' as '" +:+ v
                  +:+ "': VAE name unrecognized - valid: "
                  +:+ str_of_list (vae_dict w)))
    | Some actual_vae => Ok (choose_better_file_name v actual_vae)
    end.

(** [apply_prompt_replace(p, v)]: the loop runs once for every piece of
    [v] between the [&&] tokens, and every round splits [v] itself. *)
Definition apply_prompt_replace (w : World) (p : Request) (v : value)
  : result unit * Request :=
  match v with
  | VStr v =>
      let multiPromptReplaceToken := "&&" in
      let replacementInstructions := strip <$> split v multiPromptReplaceToken in
      for_each
        (fun replacementInstruction p =>
           let val := split_once v "=" in
           match val with
           | [m; r] =>
               let match_ := strip m in
               let replace_ := strip r in
               if VALIDATE_REPLACE w
                  && negb (contains match_ (prompt p))
                  && negb (contains match_ (negative_prompt p))
               then (Raise (RuntimeError
                              ("Invalid prompt replace, '" +:+ match_
                               +:+ "' is not in prompt '" +:+ prompt p
                               +:+ "' nor negative prompt '"
                               +:+ negative_prompt p +:+ "'")), p)
               else (Ok tt,
                     with_prompts p
                       (replace (prompt p) match_ replace_)
                       (replace (negative_prompt p) match_ replace_))
           | _ =>
               (Raise (RuntimeError
                         ("Invalid prompt replace, missing '=' symbol, for '"
                          +:+ replacementInstruction +:+ "'")), p)
           end)
        replacementInstructions p
  | _ => (Raise AttributeError, p)   (* only a string has [split] *)
  end.

(** *** Hooks installed by [try_init] *)

(** [try_init()] installs the hooks and registers the modes in the engine,
    once; of this the world keeps the flag. *)
Definition try_init (w : World) : World :=
  if has_inited w then w else with_has_inited w true.

Definition a1111_grid_call_init_hook (grid_call : SingleGridCall) : SingleGridCall :=
  mkSingleGridCall [].

(** [grid] is [grid_call.grid], the object shared by all coordinates. *)
Definition a1111_grid_call_param_add_hook
    (grid : Grid) (grid_call : SingleGridCall) (param : string) (value : value)
  : result bool * (Grid * SingleGridCall) :=
  let grid :=
    match min_width grid with
    | None => with_min_width grid (Some (width (initial_p grid)))
    | Some _ => grid
    end in
  let grid :=
    match min_height grid with
    | None => with_min_height grid (Some (height (initial_p grid)))
    | Some _ => grid
    end in
  let cleaned := clean_mode param in
  if String.eqb cleaned "promptreplace" then
    (Ok true, (grid, mkSingleGridCall (replacements grid_call ++ [value])))
  else if member cleaned ["width"; "outwidth"] then
    match int value with
    | Ok v =>
        (Ok false,
         (with_min_width grid (Some (Z.min (or_int (min_width grid) 99999) v)),
          grid_call))
    | Raise e => (Raise e, (grid, grid_call))
    end
  else if member cleaned ["height"; "outheight"] then
    match int value with
    | Ok v =>
        (Ok false,
         (with_min_height grid (Some (Z.min (or_int (min_height grid) 99999) v)),
          grid_call))
    | Raise e => (Raise e, (grid, grid_call))
    end
  else (Ok false, (grid, grid_call)).

(** The second parameter, named [param] in the script, is the request. *)
Definition a1111_grid_call_apply_hook
    (w : World) (grid_call : SingleGridCall) (param : Request) (dry : bool)
  : result unit * Request :=
  for_each (fun replace p => apply_prompt_replace w p replace)
    (replacements grid_call) param.

Definition a1111_grid_runner_pre_dry_hook (grid_runner : GridRunner) (w : World)
  : GridRunner :=
  let o := opts w in
  mkGridRunner (runner_p grid_runner)
    (Some (mkTempHolder (code_former_weight o) (face_restoration_model o)
             (sd_vae o) (sd_model_checkpoint o)))
    (grid grid_runner).

(** Lines 265 to 267: the index of the image to keep, among [n] images. *)
Definition use_result_index (p : Request) (n : Z) : Z :=
  let result_index := default 0 (inf_grid_use_result_index p) in
  if result_index >=? n then n - 1 else result_index.

(** Lines 269 to 272: the image is converted when it is an array, then
    resized when the request has both output sizes. *)
Definition post_processed (p : Request) (img : Image) : result Image :=
  img ← (if is_ndarray img then fromarray img else Ok img);
  match inf_grid_out_width p, inf_grid_out_height p with
  | Some ow, Some oh => resize img ow oh
  | _, _ => Ok img
  end.

(** The hook has no exception handler: whatever a step raises leaves it at
    once, with the world as it is at that point.  Starting the thread is
    recorded as the save it is given. *)
Definition a1111_grid_runner_post_dry_hook
    (grid_runner : GridRunner) (p : Request) (set : GridSet) (w : World)
  : result Processed * (World * GridRunner * Request) :=
  let '(s, r) := get_fixed_seed (seed p) (random_state w) in
  let p := with_seed p s in
  let '(s, r) := get_fixed_seed (subseed p) r in
  let p := with_subseed p s in
  let w := with_random_state w r in
  let '(outcome, o) := process_images p (opts w) in
  let w := with_opts (emit (ProcessImages p (opts w)) w) o in
  match outcome with
  | Raise e => (Raise e, (w, grid_runner, p))
  | Ok processed =>
      let n := Z.of_nat (length (images processed)) in
      if n <? 1 then
        (Raise (RuntimeError
                  ("Something went wrong! Image gen '" +:+ data set
                   +:+ "' produced " +:+ pretty n
                   +:+ " images, which is wrong")),
         (w, grid_runner, p))
      else
        match makedirs (filepath set) with
        | Raise e => (Raise e, (w, grid_runner, p))
        | Ok _ =>
            let w := emit (MakeDirs (filepath set)) w in
            let result_index := use_result_index p n in
            match
              img ← getitem (images processed) result_index;
              img ← post_processed p img;
              imgs ← setitem (images processed) result_index img;
              info ← create_infotext p (opts w);
              Ok (img, imgs, info)
            with
            | Raise e => (Raise e, (w, grid_runner, p))
            | Ok (img, imgs, info) =>
                let processed := mkProcessed imgs (processed_seed processed) in
                let ext := format (grid grid_runner) in
                let w := emit (StartSave img (filepath set) info ext (prompt p)
                                 (processed_seed processed)) w in
                match temp grid_runner with
                | None => (Raise AttributeError, (w, grid_runner, p))
                | Some t =>
                    let w := with_opts w
                               (mkOpts (old_model t) (old_vae t)
                                  (old_codeformer_weight t) (old_face_restorer t)) in
                    (Ok processed,
                     (w, mkGridRunner (runner_p grid_runner) None (grid grid_runner), p))
                end
            end
        end
  end.

Definition a1111_grid_runner_count_steps (grid_runner : GridRunner) (set : GridSet)
  : result Z :=
  step_count ← match params set !! "steps" with
               | Some v => int v
               | None => Ok (steps (runner_p grid_runner))
               end;
  let total_steps := step_count in
  let enable_hr :=
    match params set !! "enable highres fix" with
    | Some v => truthy v
    | None => match enable_hr (runner_p grid_runner) with
              | Some b => b
              | None => false
              end
    end in
  if enable_hr then
    highres_steps ← match params set !! "highres steps" with
                    | Some v => int v
                    | None =>
                        match hr_second_pass_steps (runner_p grid_runner) with
                        | Some steps => Ok (or_int steps step_count)
                        | None => Raise AttributeError
                        end
                    end;
    Ok (total_steps + highres_steps)
  else Ok total_steps.

(** *** [SettingsFixer] *)

Record SettingsFixer : Type := mkSettingsFixer {
  fixer_model : option string;
  fixer_code_former_weight : float;
  fixer_face_restoration_model : option string;
  fixer_vae : option string
}.

Definition SettingsFixer_enter (w : World) : SettingsFixer :=
  let o := opts w in
  mkSettingsFixer (sd_model_checkpoint o) (code_former_weight o)
    (face_restoration_model o) (sd_vae o).

Definition SettingsFixer_exit (self : SettingsFixer) (w : World) : World :=
  let w := with_opts w (mkOpts (fixer_model self) (fixer_vae self)
                          (fixer_code_former_weight self)
                          (fixer_face_restoration_model self)) in
  let w := reload_model_weights w in
  reload_vae_weights w.

(** [with SettingsFixer(): body]: [__exit__] runs however the body ends and
    returns nothing, so what the body raised is raised again. *)
Definition with_SettingsFixer {A : Type}
    (body : World -> result A * World) (w : World) : result A * World :=
  let self := SettingsFixer_enter w in
  let '(r, w) := body w in
  (r, SettingsFixer_exit self w).

(** *** [Script.run] *)

Record RunArgs : Type := mkRunArgs {
  do_overwrite : bool;
  generate_page : bool;
  dry_run : bool;
  validate_replace : bool;
  publish_gen_metadata : bool;
  grid_file : string;
  fast_skip : bool;
  output_file_path : string;
  skip_invalid : bool;
  manual_axes : list string
}.

Definition engine_args (p : Request) (a : RunArgs) (axes : option (list string))
  : EngineArgs :=
  mkEngineArgs p (grid_file a) (outpath_grids p) (output_file_path a)
    (do_overwrite a) (fast_skip a) (generate_page a) (publish_gen_metadata a)
    (dry_run a) axes (skip_invalid a).

(** The block headed [# Clean up default params]; [copy(p)] is the value
    [p] itself. *)
Definition clean_up_default_params (p : Request) (w : World) : Request * World :=
  let p := with_single_image p in
  let '(s, r) := get_fixed_seed (seed p) (random_state w) in
  (with_seed p s, with_random_state w r).

(** [core.clear_caches()] empties caches inside the engine, which the
    world does not hold. *)
Definition run (p : Request) (a : RunArgs) (w : World) : result Processed * World :=
  let w := try_init w in
  let '(p, w) := clean_up_default_params p w in
  let w := with_VALIDATE_REPLACE w (validate_replace a) in
  if contains ".." (grid_file a) || String.eqb (grid_file a) "" then
    (Raise (RuntimeError ("Unacceptable filename '" +:+ grid_file a +:+ "'")), w)
  else if contains ".." (output_file_path a) then
    (Raise (RuntimeError
              ("Unacceptable alt file path '" +:+ output_file_path a +:+ "'")), w)
  else
    let checked :=
      if String.eqb (grid_file a) "Create in UI" then
        if String.eqb (output_file_path a) "" then
          Raise (RuntimeError "Must specify the output file path")
        else Ok (Some (manual_axes a))
      else Ok None in
    match checked with
    | Raise e => (Raise e, w)
    | Ok manual_axes =>
        let args := engine_args p a manual_axes in
        let '(result, w) :=
          with_SettingsFixer (fun w => run_grid_gen args (emit (RunGridGen args) w)) w in
        match result with
        | Raise e => (Raise e, w)
        | Ok None => (Ok (new_processed p []), w)
        | Ok (Some result) => (Ok result, w)
        end
    end.

(** The param-add hook called for each axis value in turn, the way the
    engine goes through the values of a coordinate; it collects what the
    hook returned and stops at the first exception. *)
Fixpoint param_add_each (adds : list (string * value))
    (grid : Grid) (grid_call : SingleGridCall)
  : result (list bool) * (Grid * SingleGridCall) :=
  match adds with
  | [] => (Ok [], (grid, grid_call))
  | (param, value) :: adds' =>
      match a1111_grid_call_param_add_hook grid grid_call param value with
      | (Ok b, (grid, grid_call)) =>
          match param_add_each adds' grid grid_call with
          | (Ok bs, st) => (Ok (b :: bs), st)
          | (Raise e, st) => (Raise e, st)
          end
      | (Raise e, st) => (Raise e, st)
      end
  end.

(** The axes whose values the hook takes as widths, and as heights. *)
Definition width_like (param : string) : bool :=
  member (clean_mode param) ["width"; "outwidth"].

Definition height_like (param : string) : bool :=
  member (clean_mode param) ["height"; "outheight"].

(** The axis whose values the hook records for the apply phase. *)
Definition records (param : string) : bool :=
  String.eqb (clean_mode param) "promptreplace".

(** The values the hook records, in the order it sees them. *)
Fixpoint recorded_values (adds : list (string * value)) : list value :=
  match adds with
  | [] => []
  | (param, v) :: adds' =>
      if records param then v :: recorded_values adds' else recorded_values adds'
  end.


(** Lines 259 and 260: the request as it reaches [process_images]. *)
Definition fixed_seeds (p : Request) (w : World) : Request :=
  let '(s, r) := get_fixed_seed (seed p) (random_state w) in
  let p := with_seed p s in
  let '(s, r) := get_fixed_seed (subseed p) r in
  with_subseed p s.


End Script.

(** ** The modes registered by [try_init]

    One entry for each [registerMode] call: the name, whether the mode is
    applied in a dry run, the type of its values, their bounds, what
    applies a value and what cleans it.  The providers of valid values are
    closures over the backend's catalogs and are left out. *)

Module Modes.


Inductive ModeType : Type := Text | Integer | Decimal | Boolean.

Inductive Applier : Type :=
| ApplyModel
| ApplyVae
| ApplyField (name : string)
| ApplyFieldAsImageData (name : string)
| ApplyPromptReplace
| ApplyStyles
| ApplySettingOverride (name : string)
| ApplyRestoreFaces
| ApplyCodeformerWeight
| ApplyEnableHr.

Inductive Cleaner : Type := CleanModel | CleanVae | ValidateParam.

Record GridSettingMode : Type := mkMode {
  dry : bool;
  type : ModeType;
  min : option Z;
  max : option Z;
  apply : Applier;
  clean : option Cleaner
}.

Definition registered_modes : list (string * GridSettingMode) := [
  ("Model", mkMode false Text None None ApplyModel (Some CleanModel));
  ("VAE", mkMode false Text None None ApplyVae (Some CleanVae));
  ("Sampler", mkMode true Text None None (ApplyField "sampler_name") None);
  ("Scheduler", mkMode true Text None None (ApplyField "scheduler") None);
  ("Seed", mkMode true Integer None None (ApplyField "seed") None);
  ("Steps", mkMode true Integer (Some 0) (Some 200) (ApplyField "steps") None);
  ("CFG Scale", mkMode true Decimal (Some 0) (Some 500) (ApplyField "cfg_scale") None);
  ("Width", mkMode true Integer None None (ApplyField "width") None);
  ("Height", mkMode true Integer None None (ApplyField "height") None);
  ("Prompt", mkMode true Text None None (ApplyField "prompt") None);
  ("Negative Prompt", mkMode true Text None None (ApplyField "negative_prompt") None);
  ("Prompt Replace", mkMode true Text None None ApplyPromptReplace None);
  ("Styles", mkMode true Text None None ApplyStyles None);
  ("Var Seed", mkMode true Integer None None (ApplyField "subseed") None);
  ("Var Strength", mkMode true Decimal (Some 0) (Some 1) (ApplyField "subseed_strength") None);
  ("ClipSkip", mkMode false Integer (Some 1) (Some 12) (ApplySettingOverride "CLIP_stop_at_last_layers") None);
  ("Denoising", mkMode true Decimal (Some 0) (Some 1) (ApplyField "denoising_strength") None);
  ("ETA", mkMode true Decimal (Some 0) (Some 1) (ApplyField "eta") None);
  ("Sigma Churn", mkMode true Decimal (Some 0) (Some 1) (ApplyField "s_churn") None);
  ("Sigma TMin", mkMode true Decimal (Some 0) (Some 1) (ApplyField "s_tmin") None);
  ("Sigma TMax", mkMode true Decimal (Some 0) (Some 1) (ApplyField "s_tmax") None);
  ("Sigma Noise", mkMode true Decimal (Some 0) (Some 1) (ApplyField "s_noise") None);
  ("Out Width", mkMode true Integer (Some 0) None (ApplyField "inf_grid_out_width") None);
  ("Out Height", mkMode true Integer (Some 0) None (ApplyField "inf_grid_out_height") None);
  ("Restore Faces", mkMode true Text None None ApplyRestoreFaces None);
  ("CodeFormer Weight", mkMode true Decimal (Some 0) (Some 1) ApplyCodeformerWeight None);
  ("Tiling", mkMode true Boolean None None (ApplyField "tiling") None);
  ("Image Mask Weight", mkMode true Decimal (Some 0) (Some 1) (ApplyField "inpainting_mask_weight") None);
  ("ETA Noise Seed Delta", mkMode true Integer None None (ApplySettingOverride "eta_noise_seed_delta") None);
  ("Enable HighRes Fix", mkMode true Boolean None None ApplyEnableHr None);
  ("HighRes Scale", mkMode true Decimal (Some 1) (Some 16) (ApplyField "hr_scale") None);
  ("HighRes Steps", mkMode true Integer (Some 0) (Some 200) (ApplyField "hr_second_pass_steps") None);
  ("HighRes Resize Width", mkMode true Integer None None (ApplyField "hr_resize_x") None);
  ("HighRes Resize Height", mkMode true Integer None None (ApplyField "hr_resize_y") None);
  ("HighRes Upscale to Width", mkMode true Integer None None (ApplyField "hr_upscale_to_x") None);
  ("HighRes Upscale to Height", mkMode true Integer None None (ApplyField "hr_upscale_to_y") None);
  ("HighRes Upscaler", mkMode true Text None None (ApplyField "hr_upscaler") None);
  ("HighRes Sampler", mkMode true Text None None (ApplyField "hr_sampler_name") None);
  ("HighRes Checkpoint", mkMode false Text None None (ApplyField "hr_checkpoint_name") (Some CleanModel));
  ("Image CFG Scale", mkMode true Decimal (Some 0) (Some 500) (ApplyField "image_cfg_scale") None);
  ("Use Result Index", mkMode true Integer (Some 0) (Some 500) (ApplyField "inf_grid_use_result_index") None)
].

(** Registered only when the dynamic thresholding extension is present. *)
Definition dynamic_thresholding_modes : list (string * GridSettingMode) := [
  ("[DynamicThreshold] Enable", mkMode true Boolean None None (ApplyField "dynthres_enabled") None);
  ("[DynamicThreshold] Mimic Scale", mkMode true Decimal (Some 0) (Some 500) (ApplyField "dynthres_mimic_scale") None);
  ("[DynamicThreshold] Threshold Percentile", mkMode true Decimal (Some 0) (Some 100) (ApplyField "dynthres_threshold_percentile") None);
  ("[DynamicThreshold] Mimic Mode", mkMode true Text None None (ApplyField "dynthres_mimic_mode") None);
  ("[DynamicThreshold] CFG Mode", mkMode true Text None None (ApplyField "dynthres_cfg_mode") None);
  ("[DynamicThreshold] Mimic Scale Minimum", mkMode true Decimal (Some 0) (Some 100) (ApplyField "dynthres_mimic_scale_min") None);
  ("[DynamicThreshold] CFG Scale Minimum", mkMode true Decimal (Some 0) (Some 100) (ApplyField "dynthres_cfg_scale_min") None);
  ("[DynamicThreshold] Experiment Mode", mkMode true Decimal (Some 0) (Some 100000) (ApplyField "dynthres_experiment_mode") None);
  ("[DynamicThreshold] Scheduler Value", mkMode true Decimal (Some 0) (Some 100) (ApplyField "dynthres_scheduler_val") None);
  ("[DynamicThreshold] Scaling Startpoint", mkMode true Text None None (ApplyField "dynthres_scaling_startpoint") None);
  ("[DynamicThreshold] Variability Measure", mkMode true Text None None (ApplyField "dynthres_variability_measure") None);
  ("[DynamicThreshold] Interpolate Phi", mkMode true Decimal (Some 0) (Some 1) (ApplyField "dynthres_interpolate_phi") None);
  ("[DynamicThreshold] Separate Feature Channels", mkMode true Boolean None None (ApplyField "dynthres_separate_feature_channels") None)
].

(** Registered only when the ControlNet extension is present. *)
Definition controlnet_modes : list (string * GridSettingMode) := [
  ("[ControlNet] Enable", mkMode true Boolean None None (ApplyField "control_net_enabled") (Some ValidateParam));
  ("[ControlNet] Preprocessor", mkMode true Text None None (ApplyField "control_net_module") (Some ValidateParam));
  ("[ControlNet] Model", mkMode true Text None None (ApplyField "control_net_model") (Some ValidateParam));
  ("[ControlNet] Weight", mkMode true Decimal (Some 0) (Some 2) (ApplyField "control_net_weight") (Some ValidateParam));
  ("[ControlNet] Guidance Strength", mkMode true Decimal (Some 0) (Some 1) (ApplyField "control_net_guidance_strength") (Some ValidateParam));
  ("[ControlNet] Annotator Resolution", mkMode true Integer (Some 0) (Some 2048) (ApplyField "control_net_pres") (Some ValidateParam));
  ("[ControlNet] Threshold A", mkMode true Integer (Some 0) (Some 256) (ApplyField "control_net_pthr_a") (Some ValidateParam));
  ("[ControlNet] Threshold B", mkMode true Integer (Some 0) (Some 256) (ApplyField "control_net_pthr_b") (Some ValidateParam));
  ("[ControlNet] Image", mkMode true Text None None (ApplyFieldAsImageData "control_net_input_image") (Some ValidateParam))
].

(** [v] is within the bounds of the mode registered under [name]. *)
Definition admits (name : string) (v : Z) : bool :=
  match List.find (fun m => String.eqb m.1 name) registered_modes with
  | Some (_, m) =>
      match min m with Some lo => lo <=? v | None => true end
      && match max m with Some hi => v <=? hi | None => true end
  | None => false
  end.

End Modes.

(** ** The specification's reading of the same operations *)

Module Spec.

(** The three values of a coordinate the step estimate depends on, each
    either set by the coordinate or left to the request. *)
Record Coordinate : Type := mkCoordinate {
  own_steps : option Z;
  own_enable_hr : option bool;
  own_highres_steps : option Z
}.

(** A parameter of the coordinate read as an integer, or as a boolean. *)
Definition reads_int (raw : option value) (own : option Z) : Prop :=
  match raw, own with
  | None, None => True
  | Some v, Some z => int v = Ok z
  | _, _ => False
  end.

Definition reads_bool (raw : option value) (own : option bool) : Prop :=
  match raw, own with
  | None, None => True
  | Some v, Some b => v = VBool b
  | _, _ => False
  end.

Definition reads (set : GridSet) (c : Coordinate) : Prop :=
  reads_int (params set !! "steps") (own_steps c)
  /\ reads_bool (params set !! "enable highres fix") (own_enable_hr c)
  /\ reads_int (params set !! "highres steps") (own_highres_steps c).

(** Base: the coordinate's own steps if set, else the request default. *)
Definition base_steps (c : Coordinate) (p : Request) : Z :=
  default (steps p) (own_steps c).

(** The highres pass is on by the coordinate's explicit value, else by the
    request default; a request without the attribute has it off. *)
Definition highres_enabled (c : Coordinate) (p : Request) : bool :=
  default (default false (enable_hr p)) (own_enable_hr c).

(** The request's default pass gives a step count unless it is unset or 0. *)
Definition default_pass_steps (p : Request) : option Z :=
  match hr_second_pass_steps p with
  | Some (Some h) => if h =? 0 then None else Some h
  | _ => None
  end.

(** Explicit value, else the default pass's steps, else the base count. *)
Definition highres_steps (c : Coordinate) (p : Request) : Z :=
  default (default (base_steps c p) (default_pass_steps p)) (own_highres_steps c).

Definition estimated_steps (c : Coordinate) (p : Request) : Z :=
  if highres_enabled c p then base_steps c p + highres_steps c p
  else base_steps c p.

(** The estimate turns to the request's default pass when the highres pass
    is enabled and the coordinate has no highres steps of its own. *)
Definition turns_to_default_pass (c : Coordinate) (p : Request) : bool :=
  highres_enabled c p
  && match own_highres_steps c with Some _ => false | None => true end.


(** A recorded substitution [match=replace], cut at its first [=]. *)
Definition substitution (v : string) : option (string * string) :=
  match split_once v "=" with
  | [m; r] => Some (strip m, strip r)
  | _ => None
  end.

(** One substitution replaces the match text literally in the prompt and
    in the negative prompt. *)
Definition substitute (p : Request) (m r : string) : Request :=
  with_prompts p (replace (prompt p) m r) (replace (negative_prompt p) m r).

(** Replaying the recorded substitutions in the order recorded, without
    the validation of the script. *)
Fixpoint replay_all (recorded : list (string * string)) (p : Request) : Request :=
  match recorded with
  | [] => p
  | (m, r) :: rest => replay_all rest (substitute p m r)
  end.

(** The same replay with the two checks the script makes at each
    substitution: it must have an [=], and, when validation is on, its
    match text must occur in the prompt or in the negative prompt. *)
Fixpoint replay (validate : bool) (recorded : list string) (p : Request)
  : result unit * Request :=
  match recorded with
  | [] => (Ok tt, p)
  | v :: rest =>
      match substitution v with
      | None =>
          (Raise (RuntimeError
                    ("Invalid prompt replace, missing '=' symbol, for '"
                     +:+ strip v +:+ "'")), p)
      | Some (m, r) =>
          if validate && negb (contains m (prompt p))
             && negb (contains m (negative_prompt p))
          then (Raise (RuntimeError
                         ("Invalid prompt replace, '" +:+ m
                          +:+ "' is not in prompt '" +:+ prompt p
                          +:+ "' nor negative prompt '"
                          +:+ negative_prompt p +:+ "'")), p)
          else replay validate rest (substitute p m r)
      end
  end.

(** The first observation seeds the minimum width and height from the
    base width and height of the request. *)
Definition seeded (grid : Grid) : Grid :=
  mkGrid (Some (default (width (initial_p grid)) (min_width grid)))
    (Some (default (height (initial_p grid)) (min_height grid)))
    (initial_p grid) (format grid).

(** A ValidationError carries the parameter name, the offending value and
    the list of accepted values. *)
Definition carries (msg p v : string) (accepted : list string) : Prop :=
  contains p msg = true /\ contains v msg = true
  /\ contains (str_of_list accepted) msg = true.

(** RenderError: the backend produced zero images. *)
Definition render_error (set : GridSet) : exn :=
  RuntimeError ("Something went wrong! Image gen '" +:+ data set
                +:+ "' produced 0 images, which is wrong").

(** The arguments [Script.run] refuses: an empty grid file name or one
    with [..] in it, an output path with [..] in it, or the grid made in
    the UI without an output path. *)
Definition refused (a : RunArgs) : bool :=
  String.eqb (grid_file a) "" || contains ".." (grid_file a)
  || contains ".." (output_file_path a)
  || String.eqb (grid_file a) "Create in UI" && String.eqb (output_file_path a) "".

End Spec.

(** ** Sample implementations of the engine helpers and of the backend

    Used to run the script on concrete inputs. *)

Module Sample.

(** [str.lower] on code points below 256 *)
Definition lower_char (c : ascii) : ascii :=
  let n := N_of_ascii c in
  if ((65 <=? n) && (n <=? 90) || (192 <=? n) && (n <=? 222) && negb (n =? 215))%N
  then ascii_of_N (n + 32) else c.

Fixpoint lower (s : string) : string :=
  match s with
  | EmptyString => EmptyString
  | String c s' => String (lower_char c) (lower s')
  end.

Fixpoint remove_spaces (s : string) : string :=
  match s with
  | EmptyString => EmptyString
  | String c s' => if is_space c then remove_spaces s' else String c (remove_spaces s')
  end.

(** Modelled from the spec: the engine's [clean_name], missing from the
    sources; names are normalised by trimming and lowercasing. *)
Definition clean_name (s : string) : string := lower (strip s).

(** Modelled from the spec: the engine's [clean_mode], missing from the
    sources; a mode name is matched after trimming, lowercasing and
    collapsing whitespace, as in [promptreplace] and [outwidth]. *)
Definition clean_mode (s : string) : string := remove_spaces (clean_name s).

(** The first catalog entry equal to the name once both are cleaned. *)
Definition get_best_in_list (name : string) (l : list string) : option string :=
  find (fun x => String.eqb (clean_name x) (clean_name name)) l.

Definition choose_better_file_name (raw full : string) : string := full.

(** An engine that renders nothing. *)
Definition idle_engine (args : EngineArgs) (w : World)
  : result (option Processed) * World := (Ok None, w).

Definition core_with
    (engine : EngineArgs -> World -> result (option Processed) * World)
  : GridCore :=
  Build_GridCore clean_name clean_mode get_best_in_list choose_better_file_name engine.

Definition core : GridCore := core_with idle_engine.

(** A seed of -1 is unset and drawn from the random state. *)
Definition get_fixed_seed (seed : Z) (r : N) : Z * N :=
  if seed =? -1 then (Z.of_N r, (r + 1)%N) else (seed, r).

(** A backend whose render does [effect] to the shared configuration and
    then ends in [outcome]. *)
Definition backend (effect : Opts -> Opts) (outcome : result (list Image)) : Backend :=
  Build_Backend get_fixed_seed
    (fun p o => (imgs ← outcome; Ok (mkProcessed imgs (seed p)), effect o))
    (fun p o => Ok (prompt p))
    (fun p imgs => mkProcessed imgs (-1)).

(** Directories can be made and arrays converted; an image is resized to
    positive sizes only. *)
Definition outside : Outside :=
  Build_Outside (fun file => Ok tt) (fun img => Ok (FromArray img))
    (fun img w h =>
       if (0 <? w) && (0 <? h) then Ok (Resized img w h) else Raise ValueError).

Definition request : Request :=
  mkRequest (-1) (-1) 20 (Some false) (Some (Some 0)) "a cat sits" EmptyString
    1024 1024 4 2 false false "outputs/grids" None None None.

Definition options : Opts := mkOpts (Some "A") (Some "vae-A") 0.5%float None.

Definition world : World :=
  mkWorld options ["A"; "B"] ["vae-A"; "vae-B"] 7 false true [].

Definition fresh_grid : Grid := mkGrid None None request "png".

Definition runner : GridRunner := mkGridRunner request None fresh_grid.

Definition coordinate (l : list (string * value)) : GridSet :=
  mkGridSet (list_to_map l) "steps=20" "out/steps-20".

Definition highres_coordinate : GridSet :=
  coordinate [("steps", VStr "20"); ("enable highres fix", VBool true);
              ("highres steps", VInt 10)].

(** A render that switches the VAE in the shared configuration. *)
Definition switch_vae (o : Opts) : Opts :=
  mkOpts (sd_model_checkpoint o) (Some "vae-B") (code_former_weight o)
    (face_restoration_model o).

Definition no_images : Backend := backend switch_vae (Ok []).

Definition two_images : Backend :=
  backend switch_vae (Ok [Produced 0 true; Produced 1 false]).

Definition two_arrays : Backend :=
  backend switch_vae (Ok [Produced 0 true; Produced 1 true]).

(** The request with [Use Result Index] applied at 5. *)
Definition indexed_request : Request :=
  mkRequest (-1) (-1) 20 (Some false) (Some (Some 0)) "a cat sits" EmptyString
    1024 1024 1 1 true true "outputs/grids" (Some 5) None None.

(** A request of the kind that has no highres pass: neither attribute. *)
Definition plain_request : Request :=
  mkRequest (-1) (-1) 20 None None "a cat sits" EmptyString
    1024 1024 1 1 true true "outputs/grids" None None None.

(** The request with [Out Width] and [Out Height] applied at 0, which both
    modes admit. *)
Definition zero_size_request : Request :=
  mkRequest (-1) (-1) 20 (Some false) (Some (Some 0)) "a cat sits" EmptyString
    1024 1024 1 1 true true "outputs/grids" None (Some 0) (Some 0).


(** An engine that switches the model to B for a coordinate and then
    fails on it with the render error. *)
Definition failing_engine (args : EngineArgs) (w : World)
  : result (option Processed) * World :=
  (Raise (Spec.render_error highres_coordinate),
   @apply_model core (engine_p args) "B" w).

Definition failing_core : GridCore := core_with failing_engine.

Definition run_args (file out : string) : RunArgs :=
  mkRunArgs false true false true true file false out false [].

End Sample.

(** ** More of the script: list parsing, the other value modes, metadata *)

(** [str(v)], as an axis value prints. *)
Definition str (v : value) : string :=
  match v with
  | VStr s => s
  | VInt z => pretty z
  | VBool b => if b then "True" else "False"
  end.

(** An element of an axis value list after [parse_list]: the text as it
    was, or a dictionary with a title and parameters. *)
Inductive ListEntry : Type :=
| Plain (text : string)
| Titled (title : string) (entry_params : list (string * string)).

(** [prompt_replace_parse_list(in_list)]: the list is rewritten in place
    and returned; [in_list[0]] raises on the empty list. *)
Definition prompt_replace_parse_list (in_list : list string) : result (list ListEntry) :=
  if negb (existsb (contains "=") in_list) then
    first_val ← getitem in_list 0;
    Ok ((fun x => Titled x [("promptreplace", first_val +:+ "=" +:+ x)]) <$> in_list)
  else Ok (Plain <$> in_list).

(** Attributes of the request beside those of [Request], read by the
    metadata provider and written by the modes below. *)
Record Attributes : Type := mkAttributes {
  sampler_name : string;
  scheduler : string;
  cfg_scale : float;
  restore_faces : bool;
  styles : list string;
  subseed_strength : float;
  denoising_strength : option float;   (* absent or None *)
  eta : option float;
  s_churn : option float;
  s_tmin : option float;
  s_tmax : option float;
  s_noise : option float
}.

Definition with_restore_faces (a : Attributes) (b : bool) : Attributes :=
  mkAttributes (sampler_name a) (scheduler a) (cfg_scale a) b (styles a)
    (subseed_strength a) (denoising_strength a) (eta a) (s_churn a)
    (s_tmin a) (s_tmax a) (s_noise a).

Definition with_styles (a : Attributes) (l : list string) : Attributes :=
  mkAttributes (sampler_name a) (scheduler a) (cfg_scale a) (restore_faces a) l
    (subseed_strength a) (denoising_strength a) (eta a) (s_churn a)
    (s_tmin a) (s_tmax a) (s_noise a).

(** State of the backend beside that of [World]: two more settings of
    [opts], the loaded model and VAE, and the names of the face restorers. *)
Record Shared : Type := mkShared {
  CLIP_stop_at_last_layers : Z;
  eta_noise_seed_delta : Z;
  model_name : string;               (* shared.sd_model.sd_checkpoint_info.model_name *)
  loaded_vae_file : option string;   (* sd_vae.loaded_vae_file *)
  face_restorers : list string       (* m.name() for m in shared.face_restorers *)
}.

(** A value of the metadata dictionary. *)
Inductive Datum : Type :=
| DNone
| DStr (s : string)
| DInt (z : Z)
| DFloat (x : float).

(** [d.get(key)] on a dictionary kept in insertion order. *)
Fixpoint dict_get (d : list (string * Datum)) (key : string) : option Datum :=
  match d with
  | [] => None
  | (k, v) :: d' => if String.eqb k key then Some v else dict_get d' key
  end.

Section ScriptMore.
Context `{!GridCore}.

(** [core.fix_num], whose code is not part of the script. *)
Variable fix_num : option float -> Datum.

Definition apply_restore_faces (sh : Shared) (a : Attributes) (v : value) (w : World)
  : Attributes * World :=
  let input := strip (Sample.lower (str v)) in
  if String.eqb input "false" then (with_restore_faces a false, w)
  else
    let a := with_restore_faces a true in
    let restorer := get_best_in_list input (face_restorers sh) in
    match restorer with
    | Some restorer =>
        let o := opts w in
        (a, with_opts w (mkOpts (sd_model_checkpoint o) (sd_vae o)
                           (code_former_weight o) (Some restorer)))
    | None => (a, w)
    end.

Definition apply_styles (a : Attributes) (v : string) : Attributes :=
  with_styles a (split v ",").

(** The file name of a model or a VAE as the metadata shows it. *)
Definition shown_name (file : string) : string :=
  replace (replace (choose_better_file_name EmptyString file) "," EmptyString)
    ":" EmptyString.

Definition a1111_webdata_get_base_param_data
    (p : Request) (a : Attributes) (sh : Shared) (w : World)
  : list (string * Datum) :=
  [ ("sampler", DStr (sampler_name a));
    ("scheduler", DStr (scheduler a));
    ("seed", DInt (seed p));
    ("restorefaces",
     if restore_faces a
     then match face_restoration_model (opts w) with
          | Some m => DStr m
          | None => DNone
          end
     else DNone);
    ("steps", DInt (steps p));
    ("cfgscale", DFloat (cfg_scale a));
    ("model", DStr (shown_name (model_name sh)));
    ("vae",
     match loaded_vae_file sh with
     | None => DNone
     | Some file => DStr (shown_name file)
     end);
    ("width", DInt (width p));
    ("height", DInt (height p));
    ("prompt", DStr (prompt p));
    ("negativeprompt", DStr (negative_prompt p));
    ("varseed",
     if PrimFloat.eqb (subseed_strength a) 0 then DNone else DInt (subseed p));
    ("varstrength",
     if PrimFloat.eqb (subseed_strength a) 0 then DNone
     else DFloat (subseed_strength a));
    ("clipskip", DInt (CLIP_stop_at_last_layers sh));
    ("codeformerweight", DFloat (code_former_weight (opts w)));
    ("denoising",
     match denoising_strength a with Some x => DFloat x | None => DNone end);
    ("eta", fix_num (eta a));
    ("sigmachurn", fix_num (s_churn a));
    ("sigmatmin", fix_num (s_tmin a));
    ("sigmatmax", fix_num (s_tmax a));
    ("sigmanoise", fix_num (s_noise a));
    ("ENSD",
     if eta_noise_seed_delta sh =? 0 then DNone
     else DInt (eta_noise_seed_delta sh)) ].

End ScriptMore.

(** Sample attributes and backend state for concrete runs. *)
Definition sample_attributes : Attributes :=
  mkAttributes "Euler a" "Automatic" 7%float false [] 0%float None None None
    None None None.

Definition sample_shared : Shared :=
  mkShared 1 0 "models/Stable-diffusion/v1-5,pruned:ema" (Some "vae/ft-mse.pt")
    ["CodeFormer"; "GFPGAN"].

(** * Properties *)

(** ** Reading integers *)

(** [int] takes blanks around a literal and single underscores between
    its digits; it refuses the separator U+001F, which [str.strip] removes,
    and a literal of more than 4300 digits. *)
Example int_reads_literal :
  int (VStr "  +1_024 ") = Ok 1024 /\ int (VStr "-20") = Ok (-20).
Proof. split; reflexivity. Qed.

Example int_refuses_separator :
  int (VStr (String "031" "12")) = Raise ValueError
  /\ strip (String "031" "12") = "12".
Proof. split; reflexivity. Qed.

Example int_refuses_long_literal :
  int (VStr (String.concat EmptyString (repeat "1" 4300))) <> Raise ValueError
  /\ int (VStr (String.concat EmptyString (repeat "1" 4301))) = Raise ValueError.
Proof. split; [vm_compute; discriminate | vm_compute; reflexivity]. Qed.

(** ** Step-count estimation *)

Section CountSteps.

Lemma reads_int_lookup (raw : option value) (own : option Z) (d : Z) :
  Spec.reads_int raw own ->
  match raw with Some v => int v | None => Ok d end = Ok (default d own).
Proof.
  destruct raw as [v|], own as [z|]; simpl; intros H; try contradiction; auto.
Qed.

Lemma or_int_default_pass (p : Request) (h : option Z) (d : Z) :
  hr_second_pass_steps p = Some h ->
  or_int h d = default d (Spec.default_pass_steps p).
Proof.
  intros Hp. unfold or_int, Spec.default_pass_steps. rewrite Hp.
  destruct h as [h|]; [|reflexivity].
  destruct (h =? 0); reflexivity.
Qed.

Lemma enable_hr_lookup (raw : option value) (own : option bool) (p : Request) :
  Spec.reads_bool raw own ->
  match raw with
  | Some v => truthy v
  | None => match enable_hr p with
            | Some b => b
            | None => false
            end
  end = default (default false (enable_hr p)) own.
Proof.
  unfold Spec.reads_bool.
  destruct raw as [v|], own as [b|]; try contradiction.
  - intros ->. reflexivity.
  - intros _. destruct (enable_hr p); reflexivity.
Qed.

(** The estimate of the specification, for a request that has the
    attribute [hr_second_pass_steps]. *)
Lemma count_steps_with_attribute (grid_runner : GridRunner) (set : GridSet)
    (c : Spec.Coordinate) :
  Spec.reads set c ->
  has_hr_second_pass_steps (runner_p grid_runner) = true ->
  a1111_grid_runner_count_steps grid_runner set
  = Ok (Spec.estimated_steps c (runner_p grid_runner)).
Proof.
  intros (Hs & He & Hh) Hattr.
  unfold a1111_grid_runner_count_steps, Spec.estimated_steps,
    Spec.highres_enabled, Spec.highres_steps.
  rewrite (reads_int_lookup _ _ (steps (runner_p grid_runner)) Hs).
  fold (Spec.base_steps c (runner_p grid_runner)).
  cbn [mbind result_bind Py.bind].
  rewrite (enable_hr_lookup _ _ (runner_p grid_runner) He).
  destruct (default (default false (enable_hr (runner_p grid_runner)))
              (Spec.own_enable_hr c)); [|reflexivity].
  unfold has_hr_second_pass_steps in Hattr.
  destruct (hr_second_pass_steps (runner_p grid_runner)) as [h|] eqn:Hp;
    [|discriminate].
  rewrite <- (or_int_default_pass _ h _ Hp).
  unfold Spec.reads_int in Hh.
  destruct (params set !! "highres steps") as [v|],
    (Spec.own_highres_steps c) as [z|]; try contradiction.
  - rewrite Hh. reflexivity.
  - reflexivity.
Qed.

(** C3. For every coordinate whose steps, highres switch and highres steps
    read as integers and a boolean, the estimator returns the estimate of
    the specification (the base steps, plus the highres steps when the pass
    is enabled), except on a request without the attribute
    [hr_second_pass_steps] when the estimate turns to the default pass:
    there the estimator raises AttributeError instead of falling back to
    the base count. *)
Theorem count_steps_estimate (grid_runner : GridRunner) (set : GridSet)
    (c : Spec.Coordinate) :
  Spec.reads set c ->
  a1111_grid_runner_count_steps grid_runner set
  = if Spec.turns_to_default_pass c (runner_p grid_runner)
       && negb (has_hr_second_pass_steps (runner_p grid_runner))
    then Raise AttributeError
    else Ok (Spec.estimated_steps c (runner_p grid_runner)).
Proof.
  intros Hr.
  destruct (has_hr_second_pass_steps (runner_p grid_runner)) eqn:Hattr.
  - rewrite andb_false_r. apply count_steps_with_attribute; assumption.
  - rewrite andb_true_r.
    destruct Hr as (Hs & He & Hh).
    unfold a1111_grid_runner_count_steps, Spec.estimated_steps,
      Spec.turns_to_default_pass, Spec.highres_enabled, Spec.highres_steps.
    rewrite (reads_int_lookup _ _ (steps (runner_p grid_runner)) Hs).
    cbn [mbind result_bind Py.bind].
    rewrite (enable_hr_lookup _ _ (runner_p grid_runner) He).
    destruct (default (default false (enable_hr (runner_p grid_runner)))
                (Spec.own_enable_hr c)); [|reflexivity].
    unfold has_hr_second_pass_steps in Hattr.
    destruct (hr_second_pass_steps (runner_p grid_runner)); [discriminate|].
    unfold Spec.reads_int in Hh.
    destruct (params set !! "highres steps") as [v|],
      (Spec.own_highres_steps c) as [z|]; try contradiction.
    + rewrite Hh. reflexivity.
    + reflexivity.
Qed.

(** On a request without a highres pass, a coordinate that enables the
    pass and has 20 steps of its own: the specification gives 40, the
    estimator raises. *)
Lemma count_steps_estimate_witness :
  Spec.reads
    (Sample.coordinate [("steps", VStr "20"); ("enable highres fix", VBool true)])
    (Spec.mkCoordinate (Some 20) (Some true) None)
  /\ Spec.estimated_steps (Spec.mkCoordinate (Some 20) (Some true) None)
       Sample.plain_request = 40
  /\ a1111_grid_runner_count_steps
       (mkGridRunner Sample.plain_request None Sample.fresh_grid)
       (Sample.coordinate [("steps", VStr "20"); ("enable highres fix", VBool true)])
     = Raise AttributeError.
Proof.
  assert (H : Spec.reads
                (Sample.coordinate
                   [("steps", VStr "20"); ("enable highres fix", VBool true)])
                (Spec.mkCoordinate (Some 20) (Some true) None))
    by (vm_compute; repeat split).
  split; [exact H|]. split; [reflexivity|].
  exact (count_steps_estimate
           (mkGridRunner Sample.plain_request None Sample.fresh_grid) _ _ H).
Defined.

(** Steps 20, highres enabled with 10 highres steps: 30 in total. *)
Example count_steps_highres_enabled :
  a1111_grid_runner_count_steps Sample.runner Sample.highres_coordinate = Ok 30.
Proof. reflexivity. Qed.

(** With the highres pass disabled the total is 20; a coordinate without
    steps of its own falls back to the 20 steps of the request. *)
Example count_steps_highres_disabled :
  a1111_grid_runner_count_steps Sample.runner
    (Sample.coordinate [("steps", VInt 20); ("enable highres fix", VBool false);
                        ("highres steps", VInt 10)]) = Ok 20.
Proof. reflexivity. Qed.

Example count_steps_request_default :
  a1111_grid_runner_count_steps Sample.runner (Sample.coordinate []) = Ok 20.
Proof. reflexivity. Qed.

(** The request's own highres steps being 0, an enabled pass without steps
    of its own costs the base count again. *)
Example count_steps_falls_back_to_base :
  a1111_grid_runner_count_steps Sample.runner
    (Sample.coordinate [("steps", VInt 20); ("enable highres fix", VBool true)])
  = Ok 40.
Proof. reflexivity. Qed.

End CountSteps.

(** ** The post-dry hook: render, select, save, restore *)

Section PostDry.
Context `{!GridCore} `{!Outside} `{!Backend}.

Lemma fixed_seeds_keeps (p : Request) (w : World) :
  n_iter (fixed_seeds p w) = n_iter p
  /\ batch_size (fixed_seeds p w) = batch_size p
  /\ inf_grid_use_result_index (fixed_seeds p w) = inf_grid_use_result_index p
  /\ prompt (fixed_seeds p w) = prompt p.
Proof.
  unfold fixed_seeds.
  destruct (get_fixed_seed (seed p) (random_state w)) as [s r]. simpl.
  destruct (get_fixed_seed (subseed p) r) as [s' r']. simpl. auto.
Qed.


(** Fixing the seeds changes neither the output sizes nor the result
    index of the request. *)
Lemma post_processed_fixed_seeds (p : Request) (w : World) (img : Image) :
  post_processed (fixed_seeds p w) img = post_processed p img.
Proof.
  unfold fixed_seeds.
  destruct (get_fixed_seed (seed p) (random_state w)) as [s r].
  cbn [subseed with_seed].
  destruct (get_fixed_seed (subseed p) r) as [s' r']. reflexivity.
Qed.

Lemma use_result_index_fixed_seeds (p : Request) (w : World) (n : Z) :
  use_result_index (fixed_seeds p w) n = use_result_index p n.
Proof.
  unfold use_result_index.
  destruct (fixed_seeds_keeps p w) as (_ & _ & -> & _). reflexivity.
Qed.

(** The hook from the render on: what it does once the backend has
    returned at least one image. *)
Lemma post_dry_hook_rendered (grid_runner : GridRunner) (p : Request)
    (set : GridSet) (w : World) (processed : Processed) (o : Opts) :
  process_images (fixed_seeds p w) (opts w) = (Ok processed, o) ->
  images processed <> [] ->
  exists w1,
    trace w1 = trace w ++ [ProcessImages (fixed_seeds p w) (opts w)]
    /\ opts w1 = o
    /\ a1111_grid_runner_post_dry_hook grid_runner p set w
       = match makedirs (filepath set) with
         | Raise e => (Raise e, (w1, grid_runner, fixed_seeds p w))
         | Ok _ =>
             let w2 := emit (MakeDirs (filepath set)) w1 in
             let result_index :=
               use_result_index p (Z.of_nat (length (images processed))) in
             match
               img ← getitem (images processed) result_index;
               img ← post_processed p img;
               imgs ← setitem (images processed) result_index img;
               info ← create_infotext (fixed_seeds p w) o;
               Ok (img, imgs, info)
             with
             | Raise e => (Raise e, (w2, grid_runner, fixed_seeds p w))
             | Ok (img, imgs, info) =>
                 let w3 :=
                   emit (StartSave img (filepath set) info (format (grid grid_runner))
                           (prompt p) (processed_seed processed)) w2 in
                 match temp grid_runner with
                 | None => (Raise AttributeError, (w3, grid_runner, fixed_seeds p w))
                 | Some t =>
                     (Ok (mkProcessed imgs (processed_seed processed)),
                      (with_opts w3
                         (mkOpts (old_model t) (old_vae t)
                            (old_codeformer_weight t) (old_face_restorer t)),
                       mkGridRunner (runner_p grid_runner) None (grid grid_runner),
                       fixed_seeds p w))
                 end
             end
         end.
Proof.
  intros Hrender Himgs.
  pose proof (post_processed_fixed_seeds p w) as Hpost.
  pose proof (use_result_index_fixed_seeds p w) as Huse.
  destruct (fixed_seeds_keeps p w) as (_ & _ & _ & Hprompt).
  revert Hrender Hpost Huse Hprompt.
  unfold a1111_grid_runner_post_dry_hook, fixed_seeds.
  destruct (get_fixed_seed (seed p) (random_state w)) as [s r].
  cbn [subseed with_seed].
  destruct (get_fixed_seed (subseed p) r) as [s' r'].
  set (q := with_subseed (with_seed p s) s').
  intros Hrender Hpost Huse Hprompt.
  cbn [opts with_random_state]. rewrite Hrender.
  assert (Hn : 1 <= Z.of_nat (length (images processed))).
  { destruct (images processed); [contradiction | simpl; lia]. }
  destruct (Z.ltb_spec (Z.of_nat (length (images processed))) 1); [lia|].
  eexists. split; [|split]; [| |].
  3: { rewrite Huse.
       destruct (makedirs (filepath set)) as [u|e]; [|reflexivity].
       cbn zeta.
       destruct (getitem (images processed) _) as [img|e]; [|reflexivity].
       cbn [mbind result_bind Py.bind].
       rewrite Hpost.
       destruct (post_processed p img) as [kept|e]; [|reflexivity].
       cbn [mbind result_bind Py.bind].
       destruct (setitem (images processed) _ kept) as [imgs|e]; [|reflexivity].
       cbn [mbind result_bind Py.bind].
       cbn [opts emit with_opts].
       destruct (create_infotext q o) as [info|e]; [|reflexivity].
       cbn [mbind result_bind Py.bind].
       rewrite Hprompt. reflexivity. }
  - reflexivity.
  - reflexivity.
Qed.

(** When the backend itself raises, the hook raises the same and leaves the
    configuration as the backend left it. *)
Lemma post_dry_hook_backend_raises (grid_runner : GridRunner) (p : Request)
    (set : GridSet) (w : World) (e : exn) (o : Opts) :
  process_images (fixed_seeds p w) (opts w) = (Raise e, o) ->
  exists w',
    a1111_grid_runner_post_dry_hook grid_runner p set w
    = (Raise e, (w', grid_runner, fixed_seeds p w))
    /\ opts w' = o
    /\ trace w' = trace w ++ [ProcessImages (fixed_seeds p w) (opts w)].
Proof.
  unfold a1111_grid_runner_post_dry_hook, fixed_seeds.
  destruct (get_fixed_seed (seed p) (random_state w)) as [s r]. simpl.
  destruct (get_fixed_seed (subseed p) r) as [s' r']. simpl.
  intros ->. eexists. split; [reflexivity|]. split; reflexivity.
Qed.

(** When the backend returns no image, the hook raises before it does
    anything else. *)
Lemma post_dry_hook_no_images (grid_runner : GridRunner) (p : Request)
    (set : GridSet) (w : World) (processed : Processed) (o : Opts) :
  process_images (fixed_seeds p w) (opts w) = (Ok processed, o) ->
  images processed = [] ->
  exists w',
    a1111_grid_runner_post_dry_hook grid_runner p set w
    = (Raise (Spec.render_error set), (w', grid_runner, fixed_seeds p w))
    /\ opts w' = o
    /\ trace w' = trace w ++ [ProcessImages (fixed_seeds p w) (opts w)].
Proof.
  unfold a1111_grid_runner_post_dry_hook, fixed_seeds.
  destruct (get_fixed_seed (seed p) (random_state w)) as [s r]. simpl.
  destruct (get_fixed_seed (subseed p) r) as [s' r']. simpl.
  intros -> Hnil. rewrite Hnil. simpl. eexists.
  split; [reflexivity|]. split; reflexivity.
Qed.

Lemma use_result_index_in_range (p : Request) (n : Z) :
  0 <= default 0 (inf_grid_use_result_index p) -> 1 <= n ->
  use_result_index p n = Z.min (default 0 (inf_grid_use_result_index p)) (n - 1)
  /\ 0 <= use_result_index p n < n.
Proof.
  unfold use_result_index. intros Hi Hn.
  destruct (Z.geb_spec (default 0 (inf_grid_use_result_index p)) n); lia.
Qed.

Lemma getitem_in_range {A : Type} (l : list A) (i : Z) :
  0 <= i < Z.of_nat (length l) ->
  exists x, getitem l i = Ok x /\ l !! Z.to_nat i = Some x.
Proof.
  intros Hi. unfold getitem.
  destruct (Z.ltb_spec i 0); [lia|].
  destruct (Z.leb_spec 0 i); [|lia].
  destruct (Z.ltb_spec i (Z.of_nat (length l))); [|lia]. simpl.
  destruct (lookup_lt_is_Some_2 l (Z.to_nat i)) as [x Hx]; [lia|].
  rewrite Hx. eauto.
Qed.

Lemma setitem_in_range {A : Type} (l : list A) (i : Z) (x : A) :
  0 <= i < Z.of_nat (length l) ->
  setitem l i x = Ok (<[Z.to_nat i := x]> l).
Proof.
  intros Hi. unfold setitem.
  destruct (Z.ltb_spec i 0); [lia|].
  destruct (Z.leb_spec 0 i); [|lia].
  destruct (Z.ltb_spec i (Z.of_nat (length l))); [|lia]. reflexivity.
Qed.



(** Where [l[i]] can be read, [l[i] = x] can be written. *)
Lemma setitem_after_getitem {A : Type} (l : list A) (i : Z) (x y : A) :
  getitem l i = Ok x -> succeeded (setitem l i y) = true.
Proof.
  unfold getitem, setitem.
  destruct ((0 <=? _) && (_ <? _)); [reflexivity | discriminate].
Qed.

Lemma pre_dry_hook_snapshot (grid_runner : GridRunner) (w : World) :
  exists t,
    temp (a1111_grid_runner_pre_dry_hook grid_runner w) = Some t
    /\ mkOpts (old_model t) (old_vae t) (old_codeformer_weight t)
         (old_face_restorer t) = opts w.
Proof.
  eexists. split; [reflexivity|]. simpl. destruct (opts w); reflexivity.
Qed.

(** With at least one image and a result index that is not negative, the
    selection succeeds; what the hook does then depends on the steps
    outside the script only. *)
Lemma post_dry_hook_saves (grid_runner : GridRunner) (p : Request)
    (set : GridSet) (w : World) (processed : Processed) (o : Opts) :
  process_images (fixed_seeds p w) (opts w) = (Ok processed, o) ->
  images processed <> [] ->
  0 <= default 0 (inf_grid_use_result_index p) ->
  let i := Z.to_nat (use_result_index p (Z.of_nat (length (images processed)))) in
  exists selected w1,
    images processed !! i = Some selected
    /\ trace w1 = trace w ++ [ProcessImages (fixed_seeds p w) (opts w)]
    /\ opts w1 = o
    /\ a1111_grid_runner_post_dry_hook grid_runner p set w
       = match makedirs (filepath set) with
         | Raise e => (Raise e, (w1, grid_runner, fixed_seeds p w))
         | Ok _ =>
             let w2 := emit (MakeDirs (filepath set)) w1 in
             match
               kept ← post_processed p selected;
               info ← create_infotext (fixed_seeds p w) o;
               Ok (kept, info)
             with
             | Raise e => (Raise e, (w2, grid_runner, fixed_seeds p w))
             | Ok (kept, info) =>
                 let w3 :=
                   emit (StartSave kept (filepath set) info (format (grid grid_runner))
                           (prompt p) (processed_seed processed)) w2 in
                 match temp grid_runner with
                 | None => (Raise AttributeError, (w3, grid_runner, fixed_seeds p w))
                 | Some t =>
                     (Ok (mkProcessed (<[i := kept]> (images processed))
                            (processed_seed processed)),
                      (with_opts w3
                         (mkOpts (old_model t) (old_vae t)
                            (old_codeformer_weight t) (old_face_restorer t)),
                       mkGridRunner (runner_p grid_runner) None (grid grid_runner),
                       fixed_seeds p w))
                 end
             end
         end.
Proof.
  intros Hrender Himgs Hidx i.
  destruct (post_dry_hook_rendered grid_runner p set w processed o Hrender Himgs)
    as (w1 & Htrace & Ho & Hout).
  assert (Hn : 1 <= Z.of_nat (length (images processed))).
  { destruct (images processed); [contradiction | simpl; lia]. }
  destruct (use_result_index_in_range p _ Hidx Hn) as [_ Hrange].
  destruct (getitem_in_range (images processed) _ Hrange) as (img & Hget & Hlook).
  exists img, w1. split; [exact Hlook|]. split; [exact Htrace|].
  split; [exact Ho|]. rewrite Hout.
  destruct (makedirs (filepath set)) as [u|e]; [|reflexivity].
  cbn zeta. rewrite Hget. cbn [mbind result_bind Py.bind].
  destruct (post_processed p img) as [kept|e]; [|reflexivity].
  cbn [mbind result_bind Py.bind].
  rewrite (setitem_in_range _ _ _ Hrange). cbn [mbind result_bind Py.bind].
  destruct (create_infotext (fixed_seeds p w) o) as [info|e]; reflexivity.
Qed.

(** However the hook ends, the request it leaves is the one it rendered;
    when it raises, the configuration is as the render left it and the
    runner is untouched; when it returns, the snapshot that was in the
    runner is the configuration and the runner holds none. *)
Lemma post_dry_hook_state (grid_runner : GridRunner) (p : Request)
    (set : GridSet) (w : World) :
  let out := a1111_grid_runner_post_dry_hook grid_runner p set w in
  out.2.2 = fixed_seeds p w
  /\ match out.1 with
     | Raise _ =>
         opts out.2.1.1 = (process_images (fixed_seeds p w) (opts w)).2
         /\ out.2.1.2 = grid_runner
     | Ok _ =>
         exists t,
           temp grid_runner = Some t
           /\ opts out.2.1.1 = mkOpts (old_model t) (old_vae t)
                                 (old_codeformer_weight t) (old_face_restorer t)
           /\ out.2.1.2
              = mkGridRunner (runner_p grid_runner) None (grid grid_runner)
     end.
Proof.
  intros out. unfold out.
  destruct (process_images (fixed_seeds p w) (opts w)) as [[processed|e] o]
    eqn:Hrender.
  - destruct (decide (images processed = [])) as [Hnil|Hsome].
    + destruct (post_dry_hook_no_images grid_runner p set w processed o
                  Hrender Hnil) as (w' & -> & Ho & _).
      simpl. auto.
    + destruct (post_dry_hook_rendered grid_runner p set w processed o
                  Hrender Hsome) as (w1 & _ & Ho & ->).
      destruct (makedirs (filepath set)) as [u|e]; [|simpl; auto].
      cbn zeta.
      destruct (_ ← getitem _ _; _) as [[[img imgs] info]|e]; [|simpl; auto].
      destruct (temp grid_runner) as [t|]; [|simpl; auto].
      simpl. split; [reflexivity|]. exists t. auto.
  - destruct (post_dry_hook_backend_raises grid_runner p set w e o Hrender)
      as (w' & -> & Ho & _).
    simpl. auto.
Qed.


(** When the hook returns, every step of it has succeeded. *)
Lemma post_dry_hook_returned (grid_runner : GridRunner) (p : Request)
    (set : GridSet) (w : World) :
  succeeded (a1111_grid_runner_post_dry_hook grid_runner p set w).1 = true ->
  exists processed selected kept info,
    (process_images (fixed_seeds p w) (opts w)).1 = Ok processed
    /\ images processed <> []
    /\ makedirs (filepath set) = Ok tt
    /\ getitem (images processed)
         (use_result_index p (Z.of_nat (length (images processed)))) = Ok selected
    /\ post_processed p selected = Ok kept
    /\ create_infotext (fixed_seeds p w)
         (process_images (fixed_seeds p w) (opts w)).2 = Ok info.
Proof.
  destruct (process_images (fixed_seeds p w) (opts w)) as [[processed|e] o]
    eqn:Hrender.
  - destruct (decide (images processed = [])) as [Hnil|Hsome].
    + destruct (post_dry_hook_no_images grid_runner p set w processed o
                  Hrender Hnil) as (w' & -> & _).
      discriminate.
    + destruct (post_dry_hook_rendered grid_runner p set w processed o
                  Hrender Hsome) as (w1 & _ & _ & ->).
      destruct (makedirs (filepath set)) as [[]|e]; [|discriminate].
      cbn zeta.
      destruct (getitem _ _) as [selected|e] eqn:Hget; [|discriminate].
      cbn [mbind result_bind Py.bind].
      destruct (post_processed p selected) as [kept|e] eqn:Hpost; [|discriminate].
      cbn [mbind result_bind Py.bind].
      destruct (setitem _ _ _) as [imgs|e]; [|discriminate].
      cbn [mbind result_bind Py.bind].
      destruct (create_infotext _ _) as [info|e]; [|discriminate].
      intros _. exists processed, selected, kept, info. simpl. auto 10.
  - destruct (post_dry_hook_backend_raises grid_runner p set w e o Hrender)
      as (w' & -> & _).
    discriminate.
Qed.

(** And when every step succeeds and the runner holds a snapshot, the hook
    returns. *)
Lemma post_dry_hook_returns (grid_runner : GridRunner) (p : Request)
    (set : GridSet) (w : World) (processed : Processed) (o : Opts)
    (selected kept : Image) (info : string) (t : TempHolder) :
  process_images (fixed_seeds p w) (opts w) = (Ok processed, o) ->
  images processed <> [] ->
  makedirs (filepath set) = Ok tt ->
  getitem (images processed)
    (use_result_index p (Z.of_nat (length (images processed)))) = Ok selected ->
  post_processed p selected = Ok kept ->
  create_infotext (fixed_seeds p w) o = Ok info ->
  temp grid_runner = Some t ->
  succeeded (a1111_grid_runner_post_dry_hook grid_runner p set w).1 = true.
Proof.
  intros Hrender Hsome Hdirs Hget Hpost Hinfo Ht.
  destruct (post_dry_hook_rendered grid_runner p set w processed o
              Hrender Hsome) as (w1 & _ & _ & ->).
  rewrite Hdirs. cbn zeta. rewrite Hget. cbn [mbind result_bind Py.bind].
  rewrite Hpost. cbn [mbind result_bind Py.bind].
  pose proof (setitem_after_getitem _ _ _ kept Hget) as Hset.
  destruct (setitem _ _ _) as [imgs|e]; [|discriminate].
  cbn [mbind result_bind Py.bind]. rewrite Hinfo.
  cbn [mbind result_bind Py.bind]. rewrite Ht. reflexivity.
Qed.

(** C1, as amended. After PRE_DRY has put its snapshot in the runner, the
    post-dry hook returns exactly when the render returns at least one
    image, the directory of the file is made, the result index selects an
    image, the conversion and the resizing of that image succeed and the
    generation text is computed.  When it returns, it has written the
    snapshot back: the four values are what they were at PRE_DRY, whatever
    was done to them in between, and the runner holds no snapshot.  When it
    raises, for whichever reason, it has written nothing back: the
    configuration is as the render left it and the snapshot stays in the
    runner. *)
Theorem restore_after_render (grid_runner : GridRunner) (p : Request)
    (set : GridSet) (w0 w : World) :
  let cell := a1111_grid_runner_pre_dry_hook grid_runner w0 in
  let out := a1111_grid_runner_post_dry_hook cell p set w in
  let rendered := process_images (fixed_seeds p w) (opts w) in
  (succeeded out.1 = true
   <-> exists processed selected kept info,
         rendered.1 = Ok processed
         /\ images processed <> []
         /\ makedirs (filepath set) = Ok tt
         /\ getitem (images processed)
              (use_result_index p (Z.of_nat (length (images processed))))
            = Ok selected
         /\ post_processed p selected = Ok kept
         /\ create_infotext (fixed_seeds p w) rendered.2 = Ok info)
  /\ (succeeded out.1 = true ->
      opts out.2.1.1 = opts w0 /\ temp out.2.1.2 = None)
  /\ (succeeded out.1 = false ->
      opts out.2.1.1 = rendered.2 /\ temp out.2.1.2 = temp cell).
Proof.
  intros cell out rendered.
  destruct (pre_dry_hook_snapshot grid_runner w0) as (t & Ht & Hsnap).
  fold cell in Ht.
  split; [split|split].
  - apply post_dry_hook_returned.
  - intros (processed & selected & kept & info & Hr & Hsome & Hdirs & Hget
            & Hpost & Hinfo).
    unfold rendered in Hr, Hinfo.
    destruct (process_images (fixed_seeds p w) (opts w)) as [r o] eqn:Hrender.
    simpl in Hr, Hinfo. subst r.
    exact (post_dry_hook_returns cell p set w processed o selected kept info t
             Hrender Hsome Hdirs Hget Hpost Hinfo Ht).
  - intros Hok.
    destruct (post_dry_hook_state cell p set w) as [_ Hstate].
    fold out in Hstate. destruct (out.1) as [processed'|e]; [|discriminate].
    destruct Hstate as (t' & Ht' & Ho & Hrunner).
    rewrite Ht in Ht'. injection Ht' as <-.
    rewrite Ho, Hrunner, Hsnap. auto.
  - intros Hraise.
    destruct (post_dry_hook_state cell p set w) as [_ Hstate].
    fold out in Hstate. destruct (out.1) as [processed'|e]; [discriminate|].
    destruct Hstate as [Ho Hrunner]. rewrite Ho, Hrunner. auto.
Qed.

End PostDry.

(** A render that switches the VAE and returns two images: the hook
    returns and the VAE is the one of PRE_DRY again. *)
Lemma restore_after_render_witness :
  succeeded
    (@a1111_grid_runner_post_dry_hook Sample.outside Sample.two_images
       (a1111_grid_runner_pre_dry_hook Sample.runner Sample.world)
       Sample.request Sample.highres_coordinate Sample.world).1 = true
  /\ opts (@a1111_grid_runner_post_dry_hook Sample.outside Sample.two_images
             (a1111_grid_runner_pre_dry_hook Sample.runner Sample.world)
             Sample.request Sample.highres_coordinate Sample.world).2.1.1
     = opts Sample.world.
Proof.
  pose proof (@restore_after_render Sample.outside Sample.two_images
                Sample.runner Sample.request Sample.highres_coordinate
                Sample.world Sample.world) as (_ & H & _).
  split; [reflexivity|]. exact (proj1 (H eq_refl)).
Defined.

(** The same render returning no image: the hook raises, the VAE stays
    switched and the snapshot stays in the runner. *)
Lemma restore_skipped_on_render_error :
  (@a1111_grid_runner_post_dry_hook Sample.outside Sample.no_images
     (a1111_grid_runner_pre_dry_hook Sample.runner Sample.world)
     Sample.request Sample.highres_coordinate Sample.world).1
  = Raise (Spec.render_error Sample.highres_coordinate)
  /\ opts (@a1111_grid_runner_post_dry_hook Sample.outside Sample.no_images
             (a1111_grid_runner_pre_dry_hook Sample.runner Sample.world)
             Sample.request Sample.highres_coordinate Sample.world).2.1.1
     <> opts Sample.world.
Proof.
  split; [reflexivity|].
  intros H. apply (f_equal sd_vae) in H. vm_compute in H. discriminate.
Qed.

(** With [Out Width] and [Out Height] at 0 the render returns its two
    images and the resizing raises: the VAE stays switched as well. *)
Example restore_skipped_on_resize_error :
  (@a1111_grid_runner_post_dry_hook Sample.outside Sample.two_images
     (a1111_grid_runner_pre_dry_hook Sample.runner Sample.world)
     Sample.zero_size_request Sample.highres_coordinate Sample.world).1
  = Raise ValueError
  /\ sd_vae (opts (@a1111_grid_runner_post_dry_hook Sample.outside
                     Sample.two_images
                     (a1111_grid_runner_pre_dry_hook Sample.runner Sample.world)
                     Sample.zero_size_request Sample.highres_coordinate
                     Sample.world).2.1.1)
     = Some "vae-B".
Proof. split; reflexivity. Qed.

(** ** Selecting the image *)

Lemma admits_result_index (i : Z) :
  Modes.admits "Use Result Index" i = true -> 0 <= i <= 500.
Proof. unfold Modes.admits. simpl. lia. Qed.

Section Select.
Context `{!GridCore} `{!Outside} `{!Backend}.

(** C6. For every render that returns at least one image and every result
    index configured through its mode (which admits 0 to 500), the post-dry
    hook selects the image at that index, or the last image when the index
    is at or past the number of images, and the selection does not raise:
    the hook ends as the steps after the selection end (making the
    directory, converting and resizing the selected image, computing the
    generation text, the restore), and when they all succeed it returns the
    images of the render with the selected one replaced by what was kept
    of it. *)
Theorem result_index_clamped (grid_runner : GridRunner) (p : Request)
    (set : GridSet) (w : World) (processed : Processed) (o : Opts) :
  (forall i, inf_grid_use_result_index p = Some i ->
             Modes.admits "Use Result Index" i = true) ->
  process_images (fixed_seeds p w) (opts w) = (Ok processed, o) ->
  images processed <> [] ->
  let k := Z.to_nat (Z.min (default 0 (inf_grid_use_result_index p))
                       (Z.of_nat (length (images processed)) - 1)) in
  exists selected,
    images processed !! k = Some selected
    /\ (a1111_grid_runner_post_dry_hook grid_runner p set w).1
       = (_ ← makedirs (filepath set);
          kept ← post_processed p selected;
          _ ← create_infotext (fixed_seeds p w) o;
          match temp grid_runner with
          | None => Raise AttributeError
          | Some _ =>
              Ok (mkProcessed (<[k := kept]> (images processed))
                    (processed_seed processed))
          end).
Proof.
  intros Hconf Hrender Himgs k.
  assert (Hidx : 0 <= default 0 (inf_grid_use_result_index p)).
  { destruct (inf_grid_use_result_index p) as [i|]; simpl; [|lia].
    apply (admits_result_index i), Hconf. reflexivity. }
  assert (Hn : 1 <= Z.of_nat (length (images processed))).
  { destruct (images processed); [contradiction | simpl; lia]. }
  destruct (use_result_index_in_range p _ Hidx Hn) as [Heq _].
  destruct (post_dry_hook_saves grid_runner p set w processed o
              Hrender Himgs Hidx) as (selected & w1 & Hsel & _ & _ & Hout).
  rewrite Heq in Hsel, Hout. fold k in Hsel, Hout.
  exists selected. split; [exact Hsel|]. rewrite Hout.
  destruct (makedirs (filepath set)) as [u|e]; [|reflexivity].
  cbn [mbind result_bind Py.bind].
  destruct (post_processed p selected) as [kept|e]; [|reflexivity].
  cbn [mbind result_bind Py.bind].
  destruct (create_infotext (fixed_seeds p w) o) as [info|e]; [|reflexivity].
  cbn [mbind result_bind Py.bind].
  destruct (temp grid_runner); reflexivity.
Qed.

End Select.

(** Result index 5 with two images, both arrays: the hook selects the
    image at index 1, converts it and returns it in its place. *)
Lemma result_index_clamped_witness :
  (@a1111_grid_runner_post_dry_hook Sample.outside Sample.two_arrays
     (a1111_grid_runner_pre_dry_hook Sample.runner Sample.world)
     Sample.indexed_request Sample.highres_coordinate Sample.world).1
  = Ok (mkProcessed [Produced 0 true; FromArray (Produced 1 true)] 7).
Proof.
  destruct (@result_index_clamped Sample.outside Sample.two_arrays
              (a1111_grid_runner_pre_dry_hook Sample.runner Sample.world)
              Sample.indexed_request Sample.highres_coordinate Sample.world
              _ _
              ltac:(intros i Hi; injection Hi as <-; reflexivity)
              eq_refl ltac:(discriminate))
    as (selected & Hsel & Hout).
  simpl in Hsel. injection Hsel as <-. exact Hout.
Defined.

(** A negative index is outside what the mode admits; Python would count
    it from the end, and past the front it raises. *)
Example negative_index_raises :
  getitem [Produced 0 false; Produced 1 false] (-3) = Raise IndexError.
Proof. reflexivity. Qed.

(** ** Rendering a coordinate *)

Section Render.
Context `{!GridCore} `{!Outside} `{!Backend}.



(** When [Script.run] accepts its arguments, it starts the engine, inside
    the settings guard, on the request cleaned up before. *)
Lemma run_starts_engine (p : Request) (a : RunArgs) (w : World) :
  Spec.refused a = false ->
  exists axes w1,
    let args := engine_args (clean_up_default_params p (try_init w)).1 a axes in
    (run p a w).2
    = (with_SettingsFixer
         (fun w => run_grid_gen args (emit (RunGridGen args) w)) w1).2
    /\ opts w1 = opts w /\ trace w1 = trace w.
Proof.
  unfold Spec.refused, run. intros Href.
  apply orb_false_elim in Href as [Href Hui].
  apply orb_false_elim in Href as [Href Hout].
  apply orb_false_elim in Href as [Hempty Hdots].
  assert (Hw : opts (clean_up_default_params p (try_init w)).2 = opts w
               /\ trace (clean_up_default_params p (try_init w)).2 = trace w).
  { unfold clean_up_default_params, try_init. simpl.
    destruct (get_fixed_seed _ _) as [s r]. simpl.
    destruct (has_inited w); simpl; auto. }
  destruct (clean_up_default_params p (try_init w)) as [q w1]. simpl in *.
  rewrite Hdots, Hempty, Hout. simpl.
  destruct (String.eqb (grid_file a) "Create in UI").
  - simpl in Hui. rewrite Hui.
    exists (Some (manual_axes a)), (with_VALIDATE_REPLACE w1 (validate_replace a)).
    split; [|exact Hw].
    destruct (with_SettingsFixer _ _) as [[[r|]|e] w2]; reflexivity.
  - exists None, (with_VALIDATE_REPLACE w1 (validate_replace a)).
    split; [|exact Hw].
    destruct (with_SettingsFixer _ _) as [[[r|]|e] w2]; reflexivity.
Qed.



End Render.

(** No mode, of the script or of the two extensions, applies its value to
    the batch size or to the iteration count of the request. *)
Example no_mode_sets_batch :
  Forall (fun m => Modes.apply m.2 <> Modes.ApplyField "n_iter"
                   /\ Modes.apply m.2 <> Modes.ApplyField "batch_size")
    (Modes.registered_modes ++ Modes.dynamic_thresholding_modes
     ++ Modes.controlnet_modes).
Proof. repeat constructor; discriminate. Qed.



(** ** The whole-run guard and the validation of [Script.run] *)

Section Run.
Context `{!GridCore} `{!Backend}.

Lemma with_SettingsFixer_exit {A : Type} (body : World -> result A * World)
    (w : World) :
  (with_SettingsFixer body w).1 = (body w).1
  /\ opts (with_SettingsFixer body w).2 = opts w
  /\ trace (with_SettingsFixer body w).2
     = trace (body w).2 ++ [ReloadModelWeights (opts w); ReloadVaeWeights (opts w)].
Proof.
  unfold with_SettingsFixer. destruct (body w) as [r w']. simpl.
  rewrite <- app_assoc. destruct (opts w). auto.
Qed.

(** C2. However the body of the guard ends, with a value or with an
    exception, the guard hands on what the body returned or raised, the
    four values of the shared configuration are those at entry, and the
    last two backend calls are the model reload and the VAE reload, made
    with the restored configuration active.  [Script.run] puts the whole
    grid generation inside the guard, so a run that gets past validation
    ends with the configuration it started with. *)
Theorem whole_run_guard_restores {A : Type} (body : World -> result A * World)
    (w : World) (p : Request) (a : RunArgs) :
  ((with_SettingsFixer body w).1 = (body w).1
   /\ opts (with_SettingsFixer body w).2 = opts w
   /\ trace (with_SettingsFixer body w).2
      = trace (body w).2
        ++ [ReloadModelWeights (opts w); ReloadVaeWeights (opts w)])
  /\ (Spec.refused a = false ->
      opts (run p a w).2 = opts w
      /\ exists before,
           trace (run p a w).2
           = before ++ [ReloadModelWeights (opts w); ReloadVaeWeights (opts w)]).
Proof.
  split; [apply with_SettingsFixer_exit|].
  intros Hacc.
  destruct (run_starts_engine p a w Hacc) as (axes & w1 & Hrun & Ho & _).
  simpl in Hrun. rewrite Hrun.
  match goal with
  | |- context [with_SettingsFixer ?b w1] =>
      destruct (with_SettingsFixer_exit b w1) as (_ & Hopts & Htrace)
  end.
  rewrite Hopts, Htrace, Ho. split; [reflexivity|]. eexists. reflexivity.
Qed.

(** C10. When the grid file name is empty or has [..] in it, or the
    output path has [..] in it, or the grid is made in the UI and the
    output path is empty, [Script.run] raises a [RuntimeError]; the engine
    is not started, no backend operation is called and the shared
    configuration is unchanged. *)
Theorem run_refuses (p : Request) (a : RunArgs) (w : World) :
  Spec.refused a = true ->
  (exists msg, (run p a w).1 = Raise (RuntimeError msg))
  /\ opts (run p a w).2 = opts w
  /\ trace (run p a w).2 = trace w.
Proof.
  unfold Spec.refused, run. intros Href.
  assert (Hw : opts (clean_up_default_params p (try_init w)).2 = opts w
               /\ trace (clean_up_default_params p (try_init w)).2 = trace w).
  { unfold clean_up_default_params, try_init. simpl.
    destruct (get_fixed_seed _ _) as [s r]. simpl.
    destruct (has_inited w); simpl; auto. }
  destruct (clean_up_default_params p (try_init w)) as [q w1]. simpl in *.
  rewrite (orb_comm (contains ".." (grid_file a))).
  destruct (String.eqb (grid_file a) "" || contains ".." (grid_file a)).
  { simpl. split; [eauto|exact Hw]. }
  destruct (contains ".." (output_file_path a)).
  { simpl. split; [eauto|exact Hw]. }
  simpl in Href. apply andb_prop in Href as [-> ->].
  simpl. split; [eauto|exact Hw].
Qed.

(** C9. Applying the Model mode writes the resolved checkpoint into the
    shared configuration and then calls the model reload, which runs with
    the new checkpoint active; applying the VAE mode does the same with the
    resolved VAE and the VAE reload.  Nothing else of the configuration
    changes. *)
Theorem shared_state_modes_reload (p : Request) (v : string) (w : World) :
  (sd_model_checkpoint (opts (apply_model p v w)) = get_model_for w v
   /\ sd_vae (opts (apply_model p v w)) = sd_vae (opts w)
   /\ code_former_weight (opts (apply_model p v w)) = code_former_weight (opts w)
   /\ face_restoration_model (opts (apply_model p v w))
      = face_restoration_model (opts w)
   /\ trace (apply_model p v w)
      = trace w ++ [ReloadModelWeights (opts (apply_model p v w))])
  /\ (sd_vae (opts (apply_vae p v w))
      = (if String.eqb (clean_name v) "none" then Some "None"
         else if member (clean_name v) ["auto"; "automatic"] then Some "Automatic"
         else get_vae_for w (clean_name v))
      /\ sd_model_checkpoint (opts (apply_vae p v w)) = sd_model_checkpoint (opts w)
      /\ code_former_weight (opts (apply_vae p v w)) = code_former_weight (opts w)
      /\ face_restoration_model (opts (apply_vae p v w))
         = face_restoration_model (opts w)
      /\ trace (apply_vae p v w)
         = trace w ++ [ReloadVaeWeights (opts (apply_vae p v w))]).
Proof.
  unfold apply_model, apply_vae, reload_model_weights, reload_vae_weights.
  simpl. repeat split.
Qed.

End Run.

(** A run whose engine switches the model to B and fails with the render
    error on its last coordinate: the error reaches the caller and the
    model is A again. *)
Lemma whole_run_guard_restores_witness :
  (@run Sample.failing_core Sample.two_images Sample.request
     (Sample.run_args "grid.yml" "out") Sample.world).1
  = Raise (Spec.render_error Sample.highres_coordinate)
  /\ sd_model_checkpoint
       (opts (@run Sample.failing_core Sample.two_images Sample.request
                (Sample.run_args "grid.yml" "out") Sample.world).2)
     = Some "A".
Proof.
  split; [reflexivity|].
  destruct (@whole_run_guard_restores Sample.failing_core Sample.two_images
              unit (fun w => (Ok tt, w)) Sample.world Sample.request
              (Sample.run_args "grid.yml" "out")) as (_ & H).
  destruct (H eq_refl) as (Ho & _). rewrite Ho. reflexivity.
Defined.

(** Inside the guard the model was B. *)
Example failing_engine_switches_model :
  sd_model_checkpoint
    (opts (Sample.failing_engine
             (@engine_args Sample.request (Sample.run_args "grid.yml" "out") None)
             Sample.world).2) = Some "B".
Proof. reflexivity. Qed.

Lemma run_refuses_witness :
  Spec.refused (Sample.run_args "../grid.yml" "out") = true
  /\ (@run Sample.core Sample.two_images Sample.request
        (Sample.run_args "../grid.yml" "out") Sample.world).1
     = Raise (RuntimeError "Unacceptable filename '../grid.yml'")
  /\ trace (@run Sample.core Sample.two_images Sample.request
              (Sample.run_args "../grid.yml" "out") Sample.world).2 = [].
Proof.
  destruct (@run_refuses Sample.core Sample.two_images Sample.request
              (Sample.run_args "../grid.yml" "out") Sample.world eq_refl)
    as (_ & _ & Ht).
  split; [reflexivity|]. split; [reflexivity | exact Ht].
Defined.

(** ** Dimension bookkeeping *)

Section Dimensions.
Context `{!GridCore}.



Lemma or_int_nonzero (m : option Z) (d : Z) :
  default d m <> 0 -> m <> None -> or_int m 99999 = default d m.
Proof.
  destruct m as [z|]; simpl; intros Hz Hm; [|contradiction].
  destruct (Z.eqb_spec z 0); [contradiction | reflexivity].
Qed.







End Dimensions.


Example out_width_admits_zero : Modes.admits "Out Width" 0 = true.
Proof. reflexivity. Qed.


(** ** Prompt replace: recorded first, replayed later *)

Section PromptReplace.
Context `{!GridCore}.

Lemma split_without_separator (sep s : string) :
  contains sep s = false -> split_from sep 0 s = [s].
Proof.
  induction s as [|c s IH]; simpl; [reflexivity|].
  intros Hc. apply orb_false_elim in Hc as [Hs Hc].
  rewrite Hs, (IH Hc). reflexivity.
Qed.

(** Without [&&] in it, a recorded value is one substitution. *)
Lemma apply_prompt_replace_single (w : World) (p : Request) (v : string) :
  contains "&&" v = false ->
  apply_prompt_replace w p (VStr v) = Spec.replay (VALIDATE_REPLACE w) [v] p.
Proof.
  intros Hv. unfold apply_prompt_replace, split, Spec.replay, Spec.substitution.
  rewrite (split_without_separator _ _ Hv). simpl.
  destruct (split_once v "=") as [|m [|r [|x l]]]; try reflexivity.
  destruct (VALIDATE_REPLACE w && _ && _); reflexivity.
Qed.

Lemma replay_cons (validate : bool) (v : string) (vs : list string) (p : Request) :
  Spec.replay validate (v :: vs) p
  = match Spec.replay validate [v] p with
    | (Ok _, p') => Spec.replay validate vs p'
    | (Raise e, p') => (Raise e, p')
    end.
Proof.
  simpl. destruct (Spec.substitution v) as [[m r]|]; [|reflexivity].
  destruct (validate && _ && _); reflexivity.
Qed.

Lemma apply_hook_replays (w : World) (vs : list string) (p : Request) (dry : bool) :
  Forall (fun v => contains "&&" v = false) vs ->
  a1111_grid_call_apply_hook w (mkSingleGridCall (VStr <$> vs)) p dry
  = Spec.replay (VALIDATE_REPLACE w) vs p.
Proof.
  unfold a1111_grid_call_apply_hook. simpl. intros Hvs. revert p.
  induction Hvs as [|v vs Hv _ IH]; intros p; [reflexivity|].
  rewrite replay_cons. cbn [fmap list_fmap for_each].
  rewrite (apply_prompt_replace_single w p v Hv).
  destruct (Spec.replay (VALIDATE_REPLACE w) [v] p) as [[[]|e] p'];
    [apply IH | reflexivity].
Qed.

Lemma initial_p_seeded (grid : Grid) : initial_p (Spec.seeded grid) = initial_p grid.
Proof. reflexivity. Qed.

(** One call of the param-add hook: the request of the grid is left as it
    is, whatever the axis and however the call ends. *)
Lemma param_add_hook_initial_p (grid : Grid) (grid_call : SingleGridCall)
    (param : string) (v : value) :
  initial_p (a1111_grid_call_param_add_hook grid grid_call param v).2.1
  = initial_p grid.
Proof.
  unfold a1111_grid_call_param_add_hook.
  set (g := match min_height _ with None => _ | Some _ => _ end).
  assert (Hg : initial_p g = initial_p grid).
  { unfold g. destruct grid as [[mw|] [mh|] ip fmt]; reflexivity. }
  destruct (String.eqb (clean_mode param) "promptreplace"); [exact Hg|].
  destruct (member (clean_mode param) ["width"; "outwidth"]).
  { destruct (int v); exact Hg. }
  destruct (member (clean_mode param) ["height"; "outheight"]).
  { destruct (int v); exact Hg. }
  exact Hg.
Qed.

Lemma param_add_each_initial_p (adds : list (string * value)) (grid : Grid)
    (grid_call : SingleGridCall) :
  initial_p (param_add_each adds grid grid_call).2.1 = initial_p grid.
Proof.
  revert grid grid_call.
  induction adds as [|[param v] adds IH]; intros grid grid_call; [reflexivity|].
  cbn [param_add_each].
  pose proof (param_add_hook_initial_p grid grid_call param v) as Hstep.
  destruct (a1111_grid_call_param_add_hook grid grid_call param v)
    as [[b|e] [grid1 call1]]; [|exact Hstep].
  specialize (IH grid1 call1).
  destruct (param_add_each adds grid1 call1) as [[bs|e] st];
    simpl in *; congruence.
Qed.

(** A prompt-replace value is recorded and nothing else is done with it. *)
Lemma param_add_hook_records (grid : Grid) (grid_call : SingleGridCall)
    (param : string) (v : value) :
  records param = true ->
  a1111_grid_call_param_add_hook grid grid_call param v
  = (Ok true,
     (Spec.seeded grid, mkSingleGridCall (replacements grid_call ++ [v]))).
Proof.
  unfold records, a1111_grid_call_param_add_hook. intros ->.
  destruct grid as [[mw|] [mh|] ip fmt]; reflexivity.
Qed.

(** A value on another axis is not recorded; the hook returns false for
    it, provided the value reads as an integer where the axis is
    width-like or height-like. *)
Lemma param_add_hook_passes (grid : Grid) (grid_call : SingleGridCall)
    (param : string) (v : value) :
  records param = false ->
  (width_like param || height_like param = true -> succeeded (int v) = true) ->
  exists grid',
    a1111_grid_call_param_add_hook grid grid_call param v
    = (Ok false, (grid', grid_call)).
Proof.
  unfold records, width_like, height_like, a1111_grid_call_param_add_hook.
  intros -> Hint.
  destruct (member (clean_mode param) ["width"; "outwidth"]).
  { destruct (int v); [eauto | discriminate (Hint eq_refl)]. }
  destruct (member (clean_mode param) ["height"; "outheight"]).
  { destruct (int v); [eauto | discriminate (Hint eq_refl)]. }
  eauto.
Qed.

Lemma param_add_each_records (adds : list (string * value)) (grid : Grid)
    (grid_call : SingleGridCall) :
  Forall (fun a => width_like a.1 || height_like a.1 = true ->
                   succeeded (int a.2) = true) adds ->
  exists grid',
    param_add_each adds grid grid_call
    = (Ok ((fun a => records a.1) <$> adds),
       (grid', mkSingleGridCall (replacements grid_call ++ recorded_values adds))).
Proof.
  intros Hadds. revert grid grid_call.
  induction Hadds as [|[param v] adds Ha _ IH]; intros grid grid_call.
  { simpl. rewrite app_nil_r. destruct grid_call. eauto. }
  simpl in Ha. cbn [fmap list_fmap fst param_add_each recorded_values].
  destruct (records param) eqn:Hrec.
  - rewrite (param_add_hook_records grid grid_call param v Hrec).
    destruct (IH (Spec.seeded grid)
                (mkSingleGridCall (replacements grid_call ++ [v])))
      as (grid' & ->).
    exists grid'. simpl. rewrite <- app_assoc. reflexivity.
  - destruct (param_add_hook_passes grid grid_call param v Hrec Ha)
      as (grid1 & ->).
    destruct (IH grid1 grid_call) as (grid' & ->).
    exists grid'. reflexivity.
Qed.

(** C4, as amended. Among the axis values of a coordinate, of whatever
    axes, every prompt-replace value the param-add hook sees is only
    recorded: the hook returns true for it, appends it to the replacements
    of the coordinate and seeds the minimum sizes; no call of the hook
    changes the request of the grid.  When the values of the width-like
    and height-like axes read as integers, the hook returns for every
    value, true for the prompt-replace values and false for the others,
    and the replacements are the prompt-replace values in the order seen.
    The apply hook then goes through the recorded values in the order
    recorded; for values without [&&], each one is cut at its first [=]
    and its match text is replaced literally by its replace text in the
    prompt and in the negative prompt, unless the value has no [=], or
    validation is on and the match text occurs in neither text at that
    point: then the hook raises and keeps the replacements made so far. *)
Theorem prompt_replace_recorded_then_replayed (w : World) (grid : Grid)
    (grid_call : SingleGridCall) (adds : list (string * value))
    (p : Request) (dry : bool) :
  let recorded := param_add_each adds grid (a1111_grid_call_init_hook grid_call) in
  (forall g c param v,
     records param = true ->
     a1111_grid_call_param_add_hook g c param v
     = (Ok true, (Spec.seeded g, mkSingleGridCall (replacements c ++ [v]))))
  /\ initial_p recorded.2.1 = initial_p grid
  /\ (Forall (fun a => width_like a.1 || height_like a.1 = true ->
                       succeeded (int a.2) = true) adds ->
      recorded.1 = Ok ((fun a => records a.1) <$> adds)
      /\ replacements recorded.2.2 = recorded_values adds)
  /\ (forall vs,
        replacements recorded.2.2 = VStr <$> vs ->
        Forall (fun v => contains "&&" v = false) vs ->
        a1111_grid_call_apply_hook w recorded.2.2 p dry
        = Spec.replay (VALIDATE_REPLACE w) vs p).
Proof.
  intros recorded.
  split; [exact param_add_hook_records|].
  split; [apply param_add_each_initial_p|].
  split.
  - intros Hadds.
    destruct (param_add_each_records adds grid
                (a1111_grid_call_init_hook grid_call) Hadds) as (grid' & Hrun).
    unfold recorded. rewrite Hrun. split; reflexivity.
  - intros vs Hvs Hamp.
    destruct (recorded.2.2) as [l]. simpl in Hvs. subst l.
    apply apply_hook_replays. exact Hamp.
Qed.

(** With validation off and an [=] in every value, the replay is the
    plain sequence of literal replacements. *)
Lemma replay_without_validation (vs : list string) (subs : list (string * string))
    (p : Request) :
  Spec.substitution <$> vs = Some <$> subs ->
  Spec.replay false vs p = (Ok tt, Spec.replay_all subs p).
Proof.
  revert subs p. induction vs as [|v vs IH]; intros [|[m r] subs] p Hs;
    try discriminate; [reflexivity|].
  simpl in Hs. injection Hs as Hv Hs. simpl. rewrite Hv. simpl. apply IH, Hs.
Qed.

End PromptReplace.

(** The substitutions cat=dog then dog=fox, recorded in this order and
    replayed on the prompt "a cat sits", give "a fox sits". *)
Lemma prompt_replace_recorded_then_replayed_witness :
  (@param_add_each Sample.core
     [("Width", VInt 512); ("Prompt Replace", VStr "cat=dog");
      ("Steps", VStr "30"); ("Prompt Replace", VStr "dog=fox")]
     Sample.fresh_grid (a1111_grid_call_init_hook (mkSingleGridCall []))).1
  = Ok [false; true; false; true]
  /\ prompt (@a1111_grid_call_apply_hook Sample.world
               (@param_add_each Sample.core
                  [("Width", VInt 512); ("Prompt Replace", VStr "cat=dog");
                   ("Steps", VStr "30"); ("Prompt Replace", VStr "dog=fox")]
                  Sample.fresh_grid
                  (a1111_grid_call_init_hook (mkSingleGridCall []))).2.2
               Sample.request false).2
     = "a fox sits".
Proof.
  destruct (@prompt_replace_recorded_then_replayed Sample.core Sample.world
              Sample.fresh_grid (mkSingleGridCall [])
              [("Width", VInt 512); ("Prompt Replace", VStr "cat=dog");
               ("Steps", VStr "30"); ("Prompt Replace", VStr "dog=fox")]
              Sample.request false) as (_ & _ & Hrec & Hreplay).
  split.
  - apply Hrec.
    constructor; [reflexivity|]. constructor; [discriminate|].
    constructor; [discriminate|]. constructor; [discriminate|]. constructor.
  - exact (f_equal (fun r => prompt r.2)
             (Hreplay ["cat=dog"; "dog=fox"] eq_refl
                ltac:(constructor; [reflexivity|];
                      constructor; [reflexivity|]; constructor))).
Defined.

(** With validation on, as it is by default, the second of cat=dog and
    cat=fox is not replayed: its match text is gone from both texts and
    the hook raises, where a replay of both would return with the prompt
    "a dog sits". *)
Lemma replay_stops_at_missing_match :
  (@a1111_grid_call_apply_hook Sample.world
     (mkSingleGridCall [VStr "cat=dog"; VStr "cat=fox"]) Sample.request false).1
  = Raise (RuntimeError
             "Invalid prompt replace, 'cat' is not in prompt 'a dog sits' nor negative prompt ''")
  /\ prompt (Spec.replay_all [("cat", "dog"); ("cat", "fox")] Sample.request)
     = "a dog sits".
Proof. split; reflexivity. Qed.

(** A value with [&&] in it is still cut at its first [=] only, once for
    each of its pieces: here the second round finds its match text gone. *)
Example prompt_replace_with_ampersands :
  (apply_prompt_replace Sample.world Sample.request
     (VStr "cat=dog && sits=stands")).1
  = Raise (RuntimeError
             "Invalid prompt replace, 'cat' is not in prompt 'a dog && sits=stands sits' nor negative prompt ''").
Proof. reflexivity. Qed.

(** ** Cleaning the values of the catalog-backed modes *)

Section Clean.
Context `{!GridCore}.

Lemma starts_with_app (x s : string) : starts_with x (x +:+ s) = true.
Proof.
  induction x as [|c x IH]; simpl; [reflexivity|].
  rewrite Ascii.eqb_refl. exact IH.
Qed.

Lemma contains_starts_with (x s : string) :
  starts_with x s = true -> contains x s = true.
Proof. destruct s; simpl; intros Hs; rewrite Hs; reflexivity. Qed.

Lemma contains_app_r (x a s : string) :
  contains x s = true -> contains x (a +:+ s) = true.
Proof.
  intros Hs. induction a as [|c a IH]; simpl; [exact Hs|].
  rewrite IH. apply orb_true_r.
Qed.

Lemma contains_middle (x a s : string) : contains x (a +:+ x +:+ s) = true.
Proof. apply contains_app_r, contains_starts_with, starts_with_app. Qed.

Lemma contains_end (x a : string) : contains x (a +:+ x) = true.
Proof.
  apply contains_app_r, contains_starts_with.
  induction x as [|c x IH]; simpl; [reflexivity|].
  rewrite Ascii.eqb_refl. exact IH.
Qed.

(** C8, as amended. For the Model mode, a raw value that matches no
    checkpoint makes clean raise a [RuntimeError] whose message carries the
    parameter name, the value and the list of checkpoint titles; a value
    that matches is returned under its better file name.  The VAE mode
    does the same against the VAE catalog, except that a value whose
    cleaned name is none, auto or automatic is accepted without looking at
    the catalog and returned cleaned. *)
Theorem clean_catalog_modes (w : World) (p v : string) :
  match get_model_for w v with
  | None =>
      exists msg, clean_model w p v = Raise (RuntimeError msg)
                  /\ Spec.carries msg p v (checkpoints_list w)
  | Some actual => clean_model w p v = Ok (choose_better_file_name v actual)
  end
  /\ if member (clean_name v) ["none"; "auto"; "automatic"]
     then clean_vae w p v = Ok (clean_name v)
     else match get_vae_for w (clean_name v) with
          | None =>
              exists msg, clean_vae w p v = Raise (RuntimeError msg)
                          /\ Spec.carries msg p v (vae_dict w)
          | Some actual => clean_vae w p v = Ok (choose_better_file_name v actual)
          end.
Proof.
  unfold clean_model, clean_vae, Spec.carries. split.
  - destruct (get_model_for w v); [reflexivity|].
    eexists. split; [reflexivity|]. split; [apply contains_middle|].
    split; [apply contains_app_r, contains_app_r, contains_middle|].
    do 4 apply contains_app_r. apply contains_end.
  - destruct (member (clean_name v) ["none"; "auto"; "automatic"]); [reflexivity|].
    destruct (get_vae_for w (clean_name v)); [reflexivity|].
    eexists. split; [reflexivity|]. split; [apply contains_middle|].
    split; [apply contains_app_r, contains_app_r, contains_middle|].
    do 4 apply contains_app_r. apply contains_end.
Qed.

End Clean.

(** No VAE of the catalog matches the value None, and clean accepts it. *)
Lemma clean_vae_accepts_none :
  @get_vae_for Sample.core Sample.world (Sample.clean_name "None") = None
  /\ @clean_vae Sample.core Sample.world "VAE" "None" = Ok "none".
Proof. split; reflexivity. Qed.

(** An unknown model is refused with the catalog in the message. *)
Example clean_model_unknown :
  @clean_model Sample.core Sample.world "Model" "C"
  = Raise (RuntimeError
             "Invalid parameter 'Model' as 'C': model name unrecognized - valid ['A', 'B']").
Proof. reflexivity. Qed.

(** * Further properties of the script *)

(** ** Prompt replace: rounds, composition, generated lists *)

Section PromptReplaceMore.
Context `{!GridCore}.

Lemma for_each_app {X S : Type} (body : X -> S -> result unit * S)
    (xs ys : list X) (s : S) :
  for_each body (xs ++ ys) s
  = match for_each body xs s with
    | (Ok _, s') => for_each body ys s'
    | (Raise e, s') => (Raise e, s')
    end.
Proof.
  revert s. induction xs as [|x xs IH]; intros s; simpl; [reflexivity|].
  destruct (body x s) as [[[]|e] s']; [apply IH | reflexivity].
Qed.

Lemma split_from_nonempty (sep : string) (k : nat) (s : string) :
  split_from sep k s <> [].
Proof.
  revert k. induction s as [|c s IH]; intros k; simpl; [discriminate|].
  destruct k as [|k]; [|apply IH].
  destruct (starts_with sep (String c s)); [discriminate|].
  specialize (IH 0%nat). destruct (split_from sep 0 s); [contradiction | discriminate].
Qed.

Lemma apply_prompt_replace_as_replay (w : World) (p : Request) (v m r : string) :
  Spec.substitution v = Some (m, r) ->
  let rounds := length (split v "&&") in
  (1 <= rounds)%nat
  /\ apply_prompt_replace w p (VStr v)
     = Spec.replay (VALIDATE_REPLACE w) (repeat v rounds) p.
Proof.
  intros Hsub rounds. split.
  { unfold rounds, split.
    pose proof (split_from_nonempty "&&" 0 v) as Hne.
    destruct (split_from "&&" 0 v); [contradiction | simpl; lia]. }
  unfold apply_prompt_replace, rounds.
  rewrite <- (length_fmap strip (split v "&&")).
  generalize (strip <$> split v "&&") as pieces. intros pieces. revert p.
  unfold Spec.substitution in Hsub.
  induction pieces as [|piece pieces IH]; intros p; [reflexivity|].
  cbn [for_each length repeat Spec.replay]. unfold Spec.substitution.
  destruct (split_once v "=") as [|m' [|r' [|x l]]]; try discriminate.
  injection Hsub as <- <-.
  destruct (VALIDATE_REPLACE w && _ && _); [reflexivity|]. apply IH.
Qed.

(** A value with an [=] goes through one round for each of its pieces
    between [&&] tokens, and every round makes the substitution of the
    whole value, cut at its first [=]: the later pieces are never read as
    substitutions of their own. *)
Theorem prompt_replace_rounds (w : World) (p : Request) (v m r : string) :
  Spec.substitution v = Some (m, r) ->
  let rounds := length (split v "&&") in
  (1 <= rounds)%nat
  /\ apply_prompt_replace w p (VStr v)
     = Spec.replay (VALIDATE_REPLACE w) (repeat v rounds) p.
Proof. exact (apply_prompt_replace_as_replay w p v m r). Qed.

Lemma replay_without_validation_returns (v m r : string) (n : nat) (p : Request) :
  Spec.substitution v = Some (m, r) ->
  (Spec.replay false (repeat v n) p).1 = Ok tt.
Proof.
  intros Hsub. revert p. induction n as [|n IH]; intros p; [reflexivity|].
  simpl. rewrite Hsub. simpl. apply IH.
Qed.

(** A value without any [=] makes the apply raise a [RuntimeError] that
    names the first piece of the value (what stands before the first [&&],
    stripped), before anything is replaced, whether validation is on or
    off.  With validation off a value with an [=] is always applied without
    an error. *)
Theorem prompt_replace_errors (w : World) (p : Request) (v : string) :
  (Spec.substitution v = None ->
   apply_prompt_replace w p (VStr v)
   = (Raise (RuntimeError
               ("Invalid prompt replace, missing '=' symbol, for '"
                +:+ strip (default EmptyString (head (split v "&&")))
                +:+ "'")), p))
  /\ (VALIDATE_REPLACE w = false -> Spec.substitution v <> None ->
      (apply_prompt_replace w p (VStr v)).1 = Ok tt).
Proof.
  split.
  - unfold Spec.substitution, apply_prompt_replace, split. intros Hsub.
    pose proof (split_from_nonempty "&&" 0 v) as Hne.
    destruct (split_from "&&" 0 v) as [|piece pieces]; [contradiction|].
    cbn [fmap list_fmap for_each head default].
    destruct (split_once v "=") as [|m [|r [|x l]]]; try reflexivity.
    discriminate.
  - intros Hoff Hsub.
    destruct (Spec.substitution v) as [[m r]|] eqn:Hv; [|contradiction].
    destruct (apply_prompt_replace_as_replay w p v m r Hv) as [_ ->].
    rewrite Hoff. apply (replay_without_validation_returns v m r _ p Hv).
Qed.

(** The apply hook on two runs of recorded values is the hook on the
    first run followed, if that returned, by the hook on the second, on
    the request as the first run left it; if the first run raised, the
    substitutions made before the error stay in the request. *)
Theorem apply_hook_composes (w : World) (first second : list value)
    (p : Request) (dry : bool) :
  a1111_grid_call_apply_hook w (mkSingleGridCall (first ++ second)) p dry
  = match a1111_grid_call_apply_hook w (mkSingleGridCall first) p dry with
    | (Ok _, p') => a1111_grid_call_apply_hook w (mkSingleGridCall second) p' dry
    | (Raise e, p') => (Raise e, p')
    end.
Proof. unfold a1111_grid_call_apply_hook. simpl. apply for_each_app. Qed.

End PromptReplaceMore.

Lemma prompt_replace_errors_witness :
  apply_prompt_replace Sample.world Sample.request (VStr "cat && dog")
  = (Raise (RuntimeError "Invalid prompt replace, missing '=' symbol, for 'cat'"),
     Sample.request).
Proof.
  exact (proj1 (prompt_replace_errors Sample.world Sample.request "cat && dog")
           eq_refl).
Defined.

Lemma prompt_replace_rounds_witness :
  apply_prompt_replace (with_VALIDATE_REPLACE Sample.world false) Sample.request
    (VStr "cat=dog && sits=stands")
  = Spec.replay false ["cat=dog && sits=stands"; "cat=dog && sits=stands"]
      Sample.request.
Proof.
  exact (proj2 (prompt_replace_rounds (with_VALIDATE_REPLACE Sample.world false)
                  Sample.request "cat=dog && sits=stands" "cat"
                  "dog && sits=stands" eq_refl)).
Defined.

Section ParseList.
Context `{!GridCore}.

Lemma split_once_cut (a b : string) :
  contains "=" a = false -> split_once (a +:+ "=" +:+ b) "=" = [a; b].
Proof.
  induction a as [|c a IH]; [reflexivity|].
  cbn -[Ascii.eqb]. intros Hc. apply orb_false_elim in Hc as [Hhead Hc].
  rewrite andb_true_r in Hhead.
  change (String c a +:+ "=" +:+ b) with (String c (a +:+ "=" +:+ b)).
  cbn [split_once]. rewrite Ascii.eqb_sym, Hhead, (IH Hc). reflexivity.
Qed.

Lemma starts_with_split (old s : string) :
  starts_with old s = true -> exists rest, s = old +:+ rest.
Proof.
  revert s. induction old as [|a old IH]; intros s; simpl; [eauto|].
  destruct s as [|b s]; [discriminate|].
  intros Hs. apply andb_prop in Hs as [Hab Hs].
  apply Ascii.eqb_eq in Hab as ->. destruct (IH s Hs) as [rest ->]. eauto.
Qed.

Lemma replace_from_skip (old new pre rest : string) :
  replace_from old new (String.length pre) (pre +:+ rest)
  = replace_from old new 0 rest.
Proof.
  induction pre as [|c pre IH]; simpl; [|exact IH].
  destruct rest; reflexivity.
Qed.

Lemma length_app_string (a b : string) :
  String.length (a +:+ b) = (String.length a + String.length b)%nat.
Proof. induction a as [|c a IH]; simpl; [reflexivity | rewrite IH; reflexivity]. Qed.

Lemma replace_from_same (a : ascii) (old : string) (n : nat) (s : string) :
  (String.length s <= n)%nat ->
  replace_from (String a old) (String a old) 0 s = s.
Proof.
  revert s. induction n as [|n IH]; intros s Hn.
  { destruct s; [reflexivity | simpl in Hn; lia]. }
  destruct s as [|c s]; [reflexivity|].
  cbn [replace_from].
  destruct (starts_with (String a old) (String c s)) eqn:Hs.
  - destruct (starts_with_split _ _ Hs) as [rest Hrest].
    simpl in Hrest. injection Hrest as <- ->.
    replace (String.length (String c old) - 1)%nat with (String.length old)
      by (simpl; lia).
    rewrite replace_from_skip, IH; [reflexivity|].
    simpl in Hn. rewrite length_app_string in Hn. lia.
  - f_equal. apply IH. simpl in Hn. lia.
Qed.

Lemma intersperse_after_empty (s : string) : intersperse_after EmptyString s = s.
Proof. induction s as [|c s IH]; simpl; [reflexivity | rewrite IH; reflexivity]. Qed.

(** Replacing a text by itself changes nothing. *)
Lemma replace_same (s m : string) : replace s m m = s.
Proof.
  unfold replace. destruct m as [|a m].
  - simpl. apply intersperse_after_empty.
  - apply (replace_from_same _ _ (String.length s)). lia.
Qed.

Lemma substitute_same (p : Request) (m : string) : Spec.substitute p m m = p.
Proof. unfold Spec.substitute. rewrite !replace_same. destruct p; reflexivity. Qed.

Lemma replay_same (validate : bool) (v m : string) (n : nat) (p : Request) :
  Spec.substitution v = Some (m, m) ->
  (Spec.replay validate (repeat v n) p).2 = p.
Proof.
  intros Hsub. induction n as [|n IH]; [reflexivity|].
  simpl. rewrite Hsub.
  destruct (validate && _ && _); [reflexivity|].
  rewrite substitute_same. exact IH.
Qed.

(** The list parser raises, with [IndexError], exactly on the empty
    list; a list with an [=] in some element comes back as it was. *)
Theorem parse_list_errors (in_list : list string) :
  (prompt_replace_parse_list in_list = Raise IndexError <-> in_list = [])
  /\ (succeeded (prompt_replace_parse_list in_list) = false -> in_list = [])
  /\ (existsb (contains "=") in_list = true ->
      prompt_replace_parse_list in_list = Ok (Plain <$> in_list)).
Proof.
  unfold prompt_replace_parse_list.
  destruct in_list as [|first rest].
  - simpl. repeat split; auto. discriminate.
  - destruct (existsb (contains "=") (first :: rest)); simpl;
      repeat split; auto; discriminate.
Qed.

(** On a list without any [=], every element becomes an entry titled by
    the element, whose prompt-replace instruction substitutes the
    element, stripped, for the first element of the list, stripped. *)
Theorem parse_list_generates (first : string) (rest : list string) :
  existsb (contains "=") (first :: rest) = false ->
  exists entries,
    prompt_replace_parse_list (first :: rest) = Ok entries
    /\ length entries = S (length rest)
    /\ forall (i : nat) (x : string),
         (first :: rest) !! i = Some x ->
         exists instr,
           entries !! i = Some (Titled x [("promptreplace", instr)])
           /\ Spec.substitution instr = Some (strip first, strip x).
Proof.
  intros Hno. unfold prompt_replace_parse_list. rewrite Hno.
  exists ((fun y => Titled y [("promptreplace", first +:+ "=" +:+ y)])
            <$> (first :: rest)).
  split; [reflexivity|]. split.
  { rewrite length_fmap. reflexivity. }
  intros i x Hi. exists (first +:+ "=" +:+ x). split.
  - rewrite list_lookup_fmap, Hi. reflexivity.
  - unfold Spec.substitution. rewrite split_once_cut; [reflexivity|].
    simpl in Hno. apply orb_false_elim in Hno as [Hfirst _]. exact Hfirst.
Qed.

(** The entry generated for the first element of the list substitutes
    the first element for itself: applying it never changes the request,
    whether validation lets it through or not. *)
Theorem parse_list_first_entry_is_neutral (w : World) (p : Request)
    (first : string) :
  contains "=" first = false ->
  (apply_prompt_replace w p (VStr (first +:+ "=" +:+ first))).2 = p.
Proof.
  intros Hno.
  assert (Hsub : Spec.substitution (first +:+ "=" +:+ first)
                 = Some (strip first, strip first)).
  { unfold Spec.substitution. rewrite (split_once_cut _ _ Hno). reflexivity. }
  destruct (apply_prompt_replace_as_replay w p _ _ _ Hsub) as [_ ->].
  apply (replay_same _ _ _ _ _ Hsub).
Qed.

End ParseList.

Lemma parse_list_generates_witness :
  exists entries,
    prompt_replace_parse_list ["cat"; "dog"] = Ok entries
    /\ length entries = 2%nat.
Proof.
  destruct (parse_list_generates "cat" ["dog"] eq_refl) as (entries & H & Hl & _).
  exists entries. split; assumption.
Defined.

Example parse_list_cat_dog :
  prompt_replace_parse_list ["cat"; "dog"]
  = Ok [Titled "cat" [("promptreplace", "cat=cat")];
        Titled "dog" [("promptreplace", "cat=dog")]].
Proof. reflexivity. Qed.

Lemma parse_list_first_entry_is_neutral_witness :
  (apply_prompt_replace Sample.world Sample.request (VStr "cat=cat")).2
  = Sample.request.
Proof.
  exact (parse_list_first_entry_is_neutral Sample.world Sample.request "cat" eq_refl).
Defined.

Lemma parse_list_errors_witness :
  prompt_replace_parse_list ["a=b"; "c"] = Ok [Plain "a=b"; Plain "c"].
Proof. exact (proj2 (proj2 (parse_list_errors ["a=b"; "c"])) eq_refl). Defined.

(** ** Styles *)

Section Styles.
Context `{!GridCore}.

Lemma split_comma_step (c : ascii) (s : string) :
  split_from "," 0 (String c s)
  = if Ascii.eqb c ","
    then EmptyString :: split_from "," 0 s
    else match split_from "," 0 s with
         | piece :: rest => String c piece :: rest
         | [] => [String c EmptyString]
         end.
Proof.
  cbn -[Ascii.eqb]. rewrite andb_true_r, (Ascii.eqb_sym "," c). reflexivity.
Qed.

Lemma join_head_char (sep : string) (c : ascii) (piece : string)
    (rest : list string) :
  join sep (String c piece :: rest) = String c (join sep (piece :: rest)).
Proof. destruct rest; reflexivity. Qed.

Lemma join_split_comma (s : string) : join "," (split_from "," 0 s) = s.
Proof.
  induction s as [|c s IH]; [reflexivity|].
  rewrite split_comma_step.
  destruct (Ascii.eqb_spec c ",") as [->|Hc].
  - pose proof (split_from_nonempty "," 0 s) as Hne.
    destruct (split_from "," 0 s) as [|piece rest]; [contradiction|].
    change (join "," (EmptyString :: piece :: rest))
      with ("," +:+ join "," (piece :: rest)).
    rewrite IH. reflexivity.
  - pose proof (split_from_nonempty "," 0 s) as Hne.
    destruct (split_from "," 0 s) as [|piece rest]; [contradiction|].
    rewrite join_head_char, IH. reflexivity.
Qed.

Lemma split_comma_pieces (s : string) :
  Forall (fun x => contains "," x = false) (split_from "," 0 s).
Proof.
  induction s as [|c s IH]; [repeat constructor|].
  rewrite split_comma_step.
  destruct (Ascii.eqb_spec c ",") as [->|Hc].
  - constructor; [reflexivity | exact IH].
  - destruct (split_from "," 0 s) as [|piece rest]; [repeat constructor; cbn -[Ascii.eqb]|].
    + rewrite andb_true_r, orb_false_r. apply Ascii.eqb_neq. congruence.
    + inversion IH as [|? ? Hp Hrest]; subst. constructor; [|exact Hrest].
      cbn -[Ascii.eqb]. cbn -[Ascii.eqb] in Hp.
      rewrite andb_true_r.
      replace (Ascii.eqb "," c) with false
        by (symmetry; apply Ascii.eqb_neq; congruence).
      destruct piece; exact Hp.
Qed.

(** The styles set from an axis value are its pieces between commas, as
    they stand: there is at least one, none has a comma in it, and joined
    by commas they give the value back, so that nothing is trimmed and
    the empty value gives one empty style. *)
Theorem apply_styles_pieces (a : Attributes) (v : string) :
  styles (apply_styles a v) <> []
  /\ Forall (fun x => contains "," x = false) (styles (apply_styles a v))
  /\ join "," (styles (apply_styles a v)) = v
  /\ restore_faces (apply_styles a v) = restore_faces a.
Proof.
  unfold apply_styles, split. simpl.
  split; [apply split_from_nonempty|].
  split; [apply split_comma_pieces|].
  split; [apply join_split_comma | reflexivity].
Qed.

End Styles.

Example apply_styles_keeps_spaces :
  styles (apply_styles sample_attributes "anime, photo,") = ["anime"; " photo"; ""].
Proof. reflexivity. Qed.

(** ** Cleaning and applying agree *)

Section CleanApply.
Context `{!GridCore}.

(** On the same catalogs, the Model mode's clean accepts a value exactly
    when applying it writes a checkpoint, and the VAE mode's clean accepts
    a value exactly when applying it writes a VAE: a value that passed
    clean never sets the configuration to [None], and a value that clean
    would refuse does. *)
Theorem clean_accepts_what_apply_resolves (w : World) (name v : string)
    (p : Request) :
  (succeeded (clean_model w name v) = true
   <-> sd_model_checkpoint (opts (apply_model p v w)) <> None)
  /\ (succeeded (clean_vae w name v) = true
      <-> sd_vae (opts (apply_vae p v w)) <> None).
Proof.
  unfold clean_model, apply_model, clean_vae, apply_vae, member. cbn [existsb].
  split.
  - simpl. destruct (get_model_for w v); simpl; split; congruence.
  - simpl opts. simpl sd_vae.
    destruct (String.eqb (clean_name v) "none"); simpl; [split; congruence|].
    destruct (String.eqb (clean_name v) "auto"); simpl; [split; congruence|].
    destruct (String.eqb (clean_name v) "automatic"); simpl; [split; congruence|].
    destruct (get_vae_for w (clean_name v)); simpl; split; congruence.
Qed.

End CleanApply.

(** ** The param-add hook on the other axes *)

Section ParamAddMore.
Context `{!GridCore}.

Lemma param_add_hook_other (grid : Grid) (grid_call : SingleGridCall)
    (param : string) (v : value) :
  clean_mode param <> "promptreplace" ->
  (a1111_grid_call_param_add_hook grid grid_call param v).2.2 = grid_call
  /\ ((a1111_grid_call_param_add_hook grid grid_call param v).1 = Ok false
      \/ exists e,
           (a1111_grid_call_param_add_hook grid grid_call param v).1 = Raise e
           /\ int v = Raise e
           /\ width_like param || height_like param = true).
Proof.
  intros Hc. unfold a1111_grid_call_param_add_hook, width_like, height_like.
  destruct (String.eqb_spec (clean_mode param) "promptreplace"); [contradiction|].
  destruct (member (clean_mode param) ["width"; "outwidth"]).
  { destruct (int v) as [z|e]; simpl; [auto|]. split; [reflexivity|].
    right. exists e. auto. }
  destruct (member (clean_mode param) ["height"; "outheight"]).
  { destruct (int v) as [z|e]; simpl; [auto|]. split; [reflexivity|].
    right. exists e. auto. }
  simpl. auto.
Qed.

(** For a coordinate without any prompt-replace value the param-add hook
    records nothing and returns False at every value it returns from, so
    the engine applies those values itself; the apply hook then returns
    and leaves the request as it is.  This holds also when the hook
    raised on one of the values. *)
Theorem no_prompt_replace_no_substitution (adds : list (string * value))
    (grid : Grid) (grid_call : SingleGridCall) (w : World) (p : Request)
    (dry : bool) :
  Forall (fun a => clean_mode a.1 <> "promptreplace") adds ->
  let out := param_add_each adds grid (a1111_grid_call_init_hook grid_call) in
  replacements out.2.2 = []
  /\ a1111_grid_call_apply_hook w out.2.2 p dry = (Ok tt, p)
  /\ forall bs, out.1 = Ok bs -> Forall (fun b => b = false) bs.
Proof.
  intros Hadds out.
  assert (Hgen : forall g c,
            (param_add_each adds g c).2.2 = c
            /\ forall bs, (param_add_each adds g c).1 = Ok bs ->
                          Forall (fun b => b = false) bs).
  { induction Hadds as [|[param v] adds Ha _ IH]; intros g c.
    { simpl. split; [reflexivity|]. intros bs [= <-]. constructor. }
    simpl in Ha. cbn [param_add_each].
    destruct (param_add_hook_other g c param v Ha) as [Hcall Hres].
    destruct (a1111_grid_call_param_add_hook g c param v) as [[b|e] [g1 c1]].
    - simpl in Hcall. subst c1. destruct (IH g1 c) as [Hc Hbs].
      destruct (param_add_each adds g1 c) as [[bs|e] st]; simpl in *.
      + split; [exact Hc|]. intros bs' [= <-].
        destruct Hres as [[= ->]|(e & [=] & _)]. constructor; auto.
      + split; [exact Hc | discriminate].
    - simpl in *. split; [exact Hcall | discriminate]. }
  destruct (Hgen grid (a1111_grid_call_init_hook grid_call)) as [Hc Hbs].
  unfold out. rewrite Hc. split; [reflexivity|]. split; [reflexivity | exact Hbs].
Qed.

(** Whenever the hook returns from a width-like value that reads as the
    integer [z], the grid's minimum width is at most [z] afterwards, and it
    is [z], the running value before the call, or 99999.  The same holds
    for heights. *)
Theorem param_add_bounded_by_observation (grid : Grid)
    (grid_call : SingleGridCall) (param : string) (v : value) (z : Z) :
  clean_mode param <> "promptreplace" ->
  int v = Ok z ->
  let out := a1111_grid_call_param_add_hook grid grid_call param v in
  (width_like param = true ->
   exists m, min_width out.2.1 = Some m /\ m <= z
             /\ (m = z \/ m = default (width (initial_p grid)) (min_width grid)
                 \/ m = 99999))
  /\ (width_like param = false -> height_like param = true ->
      exists m, min_height out.2.1 = Some m /\ m <= z
                /\ (m = z \/ m = default (height (initial_p grid)) (min_height grid)
                    \/ m = 99999)).
Proof.
  intros Hc Hz out. unfold out, a1111_grid_call_param_add_hook, width_like, height_like.
  destruct (String.eqb_spec (clean_mode param) "promptreplace"); [contradiction|].
  set (g := match min_height _ with None => _ | Some _ => _ end).
  assert (Hg : g = Spec.seeded grid).
  { unfold g, Spec.seeded. destruct grid as [[mw|] [mh|] ip fmt]; reflexivity. }
  rewrite Hg. clear g Hg. rewrite Hz.
  split.
  - intros ->. simpl. eexists. split; [reflexivity|].
    destruct (Z.eqb_spec (default (width (initial_p grid)) (min_width grid)) 0); lia.
  - intros -> ->. simpl. eexists. split; [reflexivity|].
    destruct (Z.eqb_spec (default (height (initial_p grid)) (min_height grid)) 0); lia.
Qed.

End ParamAddMore.

Lemma no_prompt_replace_no_substitution_witness :
  @a1111_grid_call_apply_hook Sample.world
    (@param_add_each Sample.core [("Width", VStr "wide"); ("Steps", VInt 30)]
       Sample.fresh_grid
       (a1111_grid_call_init_hook (mkSingleGridCall [VStr "cat=dog"]))).2.2
    Sample.request false
  = (Ok tt, Sample.request).
Proof.
  destruct (@no_prompt_replace_no_substitution Sample.core
              [("Width", VStr "wide"); ("Steps", VInt 30)] Sample.fresh_grid
              (mkSingleGridCall [VStr "cat=dog"]) Sample.world Sample.request false)
    as (_ & H & _).
  - repeat constructor; discriminate.
  - exact H.
Defined.

Lemma param_add_bounded_by_observation_witness :
  exists m,
    min_width (@a1111_grid_call_param_add_hook Sample.core
                 (mkGrid (Some 0) (Some 0) Sample.request "png")
                 (mkSingleGridCall []) "Width" (VInt 200000)).2.1 = Some m
    /\ m <= 200000.
Proof.
  destruct (@param_add_bounded_by_observation Sample.core
              (mkGrid (Some 0) (Some 0) Sample.request "png")
              (mkSingleGridCall []) "Width" (VInt 200000) 200000)
    as [Hw _]; [discriminate | reflexivity |].
  destruct (Hw eq_refl) as (m & Hm & Hle & _). exists m. split; assumption.
Defined.

(** ** The post-dry hook: what is saved, and the missing snapshot *)

Section PostDryMore.
Context `{!GridCore} `{!Outside} `{!Backend}.


(** Called without the snapshot of the pre-dry hook in the runner, the
    hook still renders, makes the directories and, these steps
    succeeding, starts the save, and only then raises [AttributeError];
    the configuration stays as the render left it. *)
Theorem post_dry_hook_without_snapshot (grid_runner : GridRunner)
    (p : Request) (set : GridSet) (w : World) (processed : Processed)
    (o : Opts) (selected kept : Image) (info : string) :
  process_images (fixed_seeds p w) (opts w) = (Ok processed, o) ->
  0 <= default 0 (inf_grid_use_result_index p) ->
  temp grid_runner = None ->
  images processed
  !! Z.to_nat (use_result_index p (Z.of_nat (length (images processed))))
  = Some selected ->
  makedirs (filepath set) = Ok tt ->
  post_processed p selected = Ok kept ->
  create_infotext (fixed_seeds p w) o = Ok info ->
  let out := a1111_grid_runner_post_dry_hook grid_runner p set w in
  out.1 = Raise AttributeError
  /\ opts out.2.1.1 = o
  /\ last (trace out.2.1.1)
     = Some (StartSave kept (filepath set) info (format (grid grid_runner))
               (prompt p) (processed_seed processed)).
Proof.
  intros Hrender Hidx Ht Hsel Hdirs Hpost Hinfo out.
  assert (Himgs : images processed <> []).
  { intros Hnil. rewrite Hnil in Hsel. discriminate. }
  destruct (post_dry_hook_saves grid_runner p set w processed o Hrender Himgs Hidx)
    as (selected' & w1 & Hsel' & Htrace & Ho & Hout).
  rewrite Hsel in Hsel'. injection Hsel' as <-.
  rewrite Hdirs, Hpost, Hinfo, Ht in Hout. cbn [mbind result_bind Py.bind] in Hout.
  unfold out. rewrite Hout. cbn [fst snd].
  split; [reflexivity|]. split; [exact Ho|].
  cbn [trace emit]. rewrite last_app. reflexivity.
Qed.

End PostDryMore.


Lemma post_dry_hook_without_snapshot_witness :
  (@a1111_grid_runner_post_dry_hook Sample.outside Sample.two_images
     Sample.runner Sample.request Sample.highres_coordinate Sample.world).1
  = Raise AttributeError.
Proof.
  exact (proj1 (@post_dry_hook_without_snapshot Sample.outside Sample.two_images
                  Sample.runner Sample.request Sample.highres_coordinate
                  Sample.world _ _ (Produced 0 true) (FromArray (Produced 0 true))
                  "a cat sits"
                  eq_refl ltac:(simpl; lia) eq_refl eq_refl eq_refl eq_refl
                  eq_refl)).
Defined.

(** ** [Script.run]: what it returns and what it leaves behind *)

Section RunMore.
Context `{!GridCore} `{!Backend}.

Lemma run_prologue (p : Request) (w : World) :
  has_inited (clean_up_default_params p (try_init w)).2 = true
  /\ random_state (clean_up_default_params p (try_init w)).2
     = (get_fixed_seed (seed p) (random_state w)).2
  /\ do_not_save_samples (clean_up_default_params p (try_init w)).1 = true
  /\ do_not_save_grid (clean_up_default_params p (try_init w)).1 = true.
Proof.
  unfold clean_up_default_params, try_init. simpl.
  destruct (has_inited w) eqn:Hi; simpl;
    destruct (get_fixed_seed (seed p) (random_state w)) as [s r]; simpl; auto.
Qed.

(** A run that accepts its arguments returns what the engine returned,
    or an empty result built from the cleaned request when the engine
    returned nothing, and raises what the engine raised.  The engine gets
    the manual axes exactly when the grid is made in the UI, and runs in
    a world where the modes are initialised and
    [Script.VALIDATE_REPLACE] is the flag given to the run. *)
Theorem run_hands_on_engine_result (p : Request) (a : RunArgs) (w : World) :
  Spec.refused a = false ->
  exists w1,
    let cleaned := (clean_up_default_params p (try_init w)).1 in
    let axes := if String.eqb (grid_file a) "Create in UI"
                then Some (manual_axes a) else None in
    let args := engine_args cleaned a axes in
    VALIDATE_REPLACE w1 = validate_replace a
    /\ has_inited w1 = true
    /\ (run p a w).1
       = match (run_grid_gen args (emit (RunGridGen args) w1)).1 with
         | Raise e => Raise e
         | Ok None => Ok (new_processed cleaned [])
         | Ok (Some result) => Ok result
         end.
Proof.
  unfold Spec.refused, run. intros Href.
  apply orb_false_elim in Href as [Href Hui].
  apply orb_false_elim in Href as [Href Hout].
  apply orb_false_elim in Href as [Hempty Hdots].
  destruct (run_prologue p w) as (Hinit & _).
  destruct (clean_up_default_params p (try_init w)) as [q w1]. simpl in *.
  exists (with_VALIDATE_REPLACE w1 (validate_replace a)).
  rewrite Hdots, Hempty, Hout. simpl.
  split; [reflexivity|]. split; [exact Hinit|].
  destruct (String.eqb (grid_file a) "Create in UI").
  - simpl in Hui. rewrite Hui. unfold with_SettingsFixer.
    destruct (run_grid_gen _ _) as [[[r|]|e] w2]; reflexivity.
  - unfold with_SettingsFixer.
    destruct (run_grid_gen _ _) as [[[r|]|e] w2]; reflexivity.
Qed.

(** A run that refuses its arguments has by then initialised the modes,
    drawn the seed of the request from the random state and stored the
    validation flag: these stay behind after the error. *)
Theorem run_refusal_leaves_settings (p : Request) (a : RunArgs) (w : World) :
  Spec.refused a = true ->
  has_inited (run p a w).2 = true
  /\ VALIDATE_REPLACE (run p a w).2 = validate_replace a
  /\ random_state (run p a w).2 = (get_fixed_seed (seed p) (random_state w)).2.
Proof.
  unfold Spec.refused, run. intros Href.
  destruct (run_prologue p w) as (Hinit & Hrand & _).
  destruct (clean_up_default_params p (try_init w)) as [q w1]. simpl in *.
  rewrite (orb_comm (contains ".." (grid_file a))).
  destruct (String.eqb (grid_file a) "" || contains ".." (grid_file a)).
  { simpl. auto. }
  destruct (contains ".." (output_file_path a)).
  { simpl. auto. }
  simpl in Href. apply andb_prop in Href as [-> ->]. simpl. auto.
Qed.

End RunMore.

Lemma run_hands_on_engine_result_witness :
  (@run Sample.core Sample.two_images Sample.request
     (Sample.run_args "grid.yml" "out") Sample.world).1
  = Ok (mkProcessed [] (-1)).
Proof.
  destruct (@run_hands_on_engine_result Sample.core Sample.two_images
              Sample.request (Sample.run_args "grid.yml" "out") Sample.world eq_refl)
    as (w1 & _ & _ & H).
  rewrite H. reflexivity.
Defined.

Lemma run_refusal_leaves_settings_witness :
  VALIDATE_REPLACE
    (@run Sample.core Sample.two_images Sample.request
       (Sample.run_args "Create in UI" EmptyString)
       (with_VALIDATE_REPLACE Sample.world false)).2 = true.
Proof.
  exact (proj1 (proj2 (@run_refusal_leaves_settings Sample.core Sample.two_images
                         Sample.request (Sample.run_args "Create in UI" EmptyString)
                         (with_VALIDATE_REPLACE Sample.world false) eq_refl))).
Defined.

(** ** Step counts: bounds, the ignored parameter, text switches *)

Section CountStepsMore.

Lemma admits_steps (name : string) (z : Z) :
  name = "Steps" \/ name = "HighRes Steps" ->
  Modes.admits name z = true -> 0 <= z <= 200.
Proof. intros [-> | ->]; unfold Modes.admits; simpl; lia. Qed.

(** On a request that has the attribute [hr_second_pass_steps]: when the
    steps and highres steps of the coordinate are within the bounds of
    their modes and those of the request are within the same bounds, the
    estimate is between 0 and 400. *)
Theorem count_steps_bounded (grid_runner : GridRunner) (set : GridSet)
    (c : Spec.Coordinate) :
  Spec.reads set c ->
  (forall z, Spec.own_steps c = Some z -> Modes.admits "Steps" z = true) ->
  (forall z, Spec.own_highres_steps c = Some z ->
             Modes.admits "HighRes Steps" z = true) ->
  0 <= steps (runner_p grid_runner) <= 200 ->
  has_hr_second_pass_steps (runner_p grid_runner) = true ->
  (forall z, hr_second_pass_steps (runner_p grid_runner) = Some (Some z) ->
             0 <= z <= 200) ->
  exists n, a1111_grid_runner_count_steps grid_runner set = Ok n /\ 0 <= n <= 400.
Proof.
  intros Hreads Hs Hh Hp Hattr Hhr.
  rewrite (count_steps_with_attribute grid_runner set c Hreads Hattr).
  eexists. split; [reflexivity|].
  assert (Hb : 0 <= Spec.base_steps c (runner_p grid_runner) <= 200).
  { unfold Spec.base_steps. destruct (Spec.own_steps c) as [z|]; simpl; [|exact Hp].
    apply (admits_steps "Steps"); auto. }
  assert (Hhs : 0 <= Spec.highres_steps c (runner_p grid_runner) <= 200).
  { unfold Spec.highres_steps, Spec.default_pass_steps.
    destruct (Spec.own_highres_steps c) as [z|]; simpl.
    { apply (admits_steps "HighRes Steps"); auto. }
    destruct (hr_second_pass_steps (runner_p grid_runner)) as [[z|]|]; simpl;
      [|exact Hb|exact Hb].
    destruct (Z.eqb_spec z 0); simpl; [exact Hb | auto]. }
  unfold Spec.estimated_steps.
  destruct (Spec.highres_enabled c (runner_p grid_runner)); lia.
Qed.

(** With the highres pass off, by the coordinate's value or by the
    request, the estimator never reads the highres steps of the
    coordinate: whatever stands there, even text that is no number, the
    result is the same. *)
Theorem count_steps_ignores_highres_steps_when_off (grid_runner : GridRunner)
    (set : GridSet) (junk : value) :
  match params set !! "enable highres fix" with
  | Some v => truthy v
  | None => default false (enable_hr (runner_p grid_runner))
  end = false ->
  a1111_grid_runner_count_steps grid_runner
    (mkGridSet (<["highres steps" := junk]> (params set)) (data set) (filepath set))
  = a1111_grid_runner_count_steps grid_runner set.
Proof.
  intros Hoff. unfold a1111_grid_runner_count_steps. simpl.
  rewrite (lookup_insert_ne (params set) "highres steps" "steps"),
    (lookup_insert_ne (params set) "highres steps" "enable highres fix")
    by discriminate.
  destruct (match params set !! "steps" with
            | Some v => int v
            | None => Ok (steps (runner_p grid_runner))
            end) as [n|e]; [|reflexivity].
  cbn [mbind result_bind Py.bind].
  destruct (params set !! "enable highres fix") as [v|].
  - rewrite Hoff. reflexivity.
  - destruct (enable_hr (runner_p grid_runner)) as [[]|]; simpl in Hoff;
      [discriminate | reflexivity | reflexivity].
Qed.

(** The switch is read by its truth value: a text value turns the highres
    pass on whenever it is not empty, also when it spells false; the
    estimator then adds the highres steps of the request, or the base count
    again when they are None or 0, and raises on a request that has no
    such attribute. *)
Theorem count_steps_text_switch_enables (grid_runner : GridRunner)
    (set : GridSet) (text : string) (base : Z) :
  text <> EmptyString ->
  params set !! "enable highres fix" = Some (VStr text) ->
  params set !! "highres steps" = None ->
  match params set !! "steps" with
  | Some v => int v
  | None => Ok (steps (runner_p grid_runner))
  end = Ok base ->
  a1111_grid_runner_count_steps grid_runner set
  = match hr_second_pass_steps (runner_p grid_runner) with
    | Some pass_steps => Ok (base + or_int pass_steps base)
    | None => Raise AttributeError
    end.
Proof.
  intros Htext Hen Hhr Hbase. unfold a1111_grid_runner_count_steps.
  rewrite Hbase, Hen, Hhr. cbn [mbind result_bind Py.bind truthy].
  destruct (String.eqb_spec text ""); [contradiction|].
  destruct (hr_second_pass_steps (runner_p grid_runner)); reflexivity.
Qed.

End CountStepsMore.

Lemma count_steps_bounded_witness :
  exists n,
    a1111_grid_runner_count_steps Sample.runner Sample.highres_coordinate = Ok n
    /\ 0 <= n <= 400.
Proof.
  apply (count_steps_bounded Sample.runner Sample.highres_coordinate
           (Spec.mkCoordinate (Some 20) (Some true) (Some 10))).
  - vm_compute. repeat split.
  - intros z [= <-]. reflexivity.
  - intros z [= <-]. reflexivity.
  - simpl. lia.
  - reflexivity.
  - intros z [= <-]. lia.
Defined.

Lemma count_steps_ignores_highres_steps_when_off_witness :
  a1111_grid_runner_count_steps Sample.runner
    (mkGridSet (<["highres steps" := VStr "many"]> (params (Sample.coordinate [])))
       "steps=20" "out/steps-20")
  = Ok 20.
Proof.
  exact (count_steps_ignores_highres_steps_when_off Sample.runner
           (Sample.coordinate []) (VStr "many") eq_refl).
Defined.

Lemma count_steps_text_switch_enables_witness :
  a1111_grid_runner_count_steps Sample.runner
    (Sample.coordinate [("enable highres fix", VStr "false")]) = Ok 40.
Proof.
  exact (count_steps_text_switch_enables Sample.runner
           (Sample.coordinate [("enable highres fix", VStr "false")]) "false" 20
           ltac:(discriminate) eq_refl eq_refl eq_refl).
Defined.

(** ** Restore faces *)

Section RestoreFaces.
Context `{!GridCore}.

(** Applying the Restore Faces mode turns face restoration off for a
    value that prints as false, whatever its case and the blanks around
    it, and then changes nothing of the configuration; for any other
    value it turns face restoration on and sets the face-restoration
    model, and only that, when a restorer matches the value.  It never
    touches the model, the VAE or the code-former weight and calls no
    backend operation. *)
Theorem apply_restore_faces_effect (sh : Shared) (a : Attributes) (v : value)
    (w : World) :
  let input := strip (Sample.lower (str v)) in
  let out := apply_restore_faces sh a v w in
  restore_faces out.1 = negb (String.eqb input "false")
  /\ (input = "false" -> out.2 = w)
  /\ sd_model_checkpoint (opts out.2) = sd_model_checkpoint (opts w)
  /\ sd_vae (opts out.2) = sd_vae (opts w)
  /\ code_former_weight (opts out.2) = code_former_weight (opts w)
  /\ trace out.2 = trace w
  /\ face_restoration_model (opts out.2)
     = match get_best_in_list input (face_restorers sh) with
       | Some restorer => if String.eqb input "false"
                          then face_restoration_model (opts w)
                          else Some restorer
       | None => face_restoration_model (opts w)
       end.
Proof.
  intros input out. unfold out, apply_restore_faces. fold input.
  destruct (String.eqb_spec input "false") as [Hf|Hf].
  - simpl. repeat split; auto.
    destruct (get_best_in_list input (face_restorers sh)); reflexivity.
  - destruct (get_best_in_list input (face_restorers sh)); simpl;
      repeat split; auto; contradiction.
Qed.

End RestoreFaces.

Example restore_faces_false_any_case :
  restore_faces (@apply_restore_faces Sample.core sample_shared
                   (with_restore_faces sample_attributes true) (VStr " FALSE ")
                   Sample.world).1 = false
  /\ restore_faces (@apply_restore_faces Sample.core sample_shared
                      sample_attributes (VBool false) Sample.world).1 = false
  /\ face_restoration_model
       (opts (@apply_restore_faces Sample.core sample_shared sample_attributes
                (VStr "gfpgan") Sample.world).2) = Some "GFPGAN".
Proof. repeat split. Qed.

(** ** The metadata of a request *)

Section WebData.
Context `{!GridCore}.
Variable fix_num : option float -> Datum.

Lemma remove_step (d a : ascii) (s : string) :
  replace_from (String d EmptyString) EmptyString 0 (String a s)
  = if Ascii.eqb d a
    then replace_from (String d EmptyString) EmptyString 0 s
    else String a (replace_from (String d EmptyString) EmptyString 0 s).
Proof. cbn -[Ascii.eqb]. rewrite andb_true_r. reflexivity. Qed.

Lemma contains_char_step (c a : ascii) (s : string) :
  contains (String c EmptyString) (String a s)
  = Ascii.eqb c a || contains (String c EmptyString) s.
Proof. cbn -[Ascii.eqb]. rewrite andb_true_r. reflexivity. Qed.

Lemma contains_char_empty (c : ascii) :
  contains (String c EmptyString) EmptyString = false.
Proof. reflexivity. Qed.

(** Removing a character leaves none of it, and brings in no other. *)
Lemma remove_char (c d : ascii) (s : string) :
  (c = d \/ contains (String c EmptyString) s = false) ->
  contains (String c EmptyString) (replace s (String d EmptyString) EmptyString)
  = false.
Proof.
  unfold replace. induction s as [|a s IH]; intros Hc; [reflexivity|].
  rewrite remove_step.
  assert (Hs : c = d \/ contains (String c EmptyString) s = false).
  { destruct Hc as [->|Hc]; [auto|]. right.
    rewrite contains_char_step in Hc. apply orb_false_elim in Hc as [_ Hc]. exact Hc. }
  destruct (Ascii.eqb_spec d a) as [->|Hda]; [exact (IH Hs)|].
  rewrite contains_char_step, (IH Hs), orb_false_r.
  apply Ascii.eqb_neq. destruct Hc as [->|Hc]; [exact Hda|].
  rewrite contains_char_step in Hc. apply orb_false_elim in Hc as [Hc _].
  apply Ascii.eqb_neq. exact Hc.
Qed.

Lemma shown_name_clean (file : string) :
  contains "," (shown_name file) = false /\ contains ":" (shown_name file) = false.
Proof.
  unfold shown_name. split.
  - apply remove_char. right. apply remove_char. left. reflexivity.
  - apply remove_char. left. reflexivity.
Qed.

(** In the metadata of a request the model is always a text without
    comma and colon, whatever the engine's file-name helper returns; the
    VAE is absent exactly when no VAE file is loaded, and otherwise a text
    without comma and colon as well. *)
Theorem webdata_names_have_no_separators (p : Request) (a : Attributes)
    (sh : Shared) (w : World) :
  let d := a1111_webdata_get_base_param_data fix_num p a sh w in
  (exists name, dict_get d "model" = Some (DStr name)
                /\ contains "," name = false /\ contains ":" name = false)
  /\ (loaded_vae_file sh = None <-> dict_get d "vae" = Some DNone)
  /\ (forall file, loaded_vae_file sh = Some file ->
        exists name, dict_get d "vae" = Some (DStr name)
                     /\ contains "," name = false /\ contains ":" name = false).
Proof.
  intros d. split; [|split].
  - exists (shown_name (model_name sh)). split; [reflexivity|].
    apply shown_name_clean.
  - unfold d. simpl. destruct (loaded_vae_file sh); split; congruence.
  - intros file Hf. exists (shown_name file). unfold d. simpl. rewrite Hf.
    split; [reflexivity | apply shown_name_clean].
Qed.

(** The variation seed and the variation strength are present or absent
    together, absent exactly when the strength equals 0; the face
    restorer is absent whenever face restoration is off; the noise seed
    delta is absent exactly when it is 0. *)
Theorem webdata_optional_entries (p : Request) (a : Attributes)
    (sh : Shared) (w : World) :
  let d := a1111_webdata_get_base_param_data fix_num p a sh w in
  (dict_get d "varseed" = Some DNone <-> PrimFloat.eqb (subseed_strength a) 0 = true)
  /\ (dict_get d "varstrength" = Some DNone
      <-> PrimFloat.eqb (subseed_strength a) 0 = true)
  /\ (restore_faces a = false -> dict_get d "restorefaces" = Some DNone)
  /\ (dict_get d "ENSD" = Some DNone <-> eta_noise_seed_delta sh = 0)
  /\ dict_get d "seed" = Some (DInt (seed p))
  /\ dict_get d "steps" = Some (DInt (steps p)).
Proof.
  intros d. unfold d. simpl.
  destruct (PrimFloat.eqb (subseed_strength a) 0).
  - repeat split; auto.
    + intros ->. reflexivity.
    + destruct (Z.eqb_spec (eta_noise_seed_delta sh) 0); congruence.
    + intros ->. reflexivity.
  - repeat split; try discriminate; auto.
    + intros ->. reflexivity.
    + destruct (Z.eqb_spec (eta_noise_seed_delta sh) 0); congruence.
    + intros ->. reflexivity.
Qed.

End WebData.

Example webdata_model_name :
  dict_get (@a1111_webdata_get_base_param_data Sample.core (fun _ => DNone)
              Sample.request sample_attributes sample_shared Sample.world)
    "model"
  = Some (DStr "models/Stable-diffusion/v1-5prunedema").
Proof. reflexivity. Qed.

Lemma webdata_names_have_no_separators_witness :
  exists name,
    dict_get (@a1111_webdata_get_base_param_data Sample.core (fun _ => DNone)
                Sample.request sample_attributes sample_shared Sample.world)
      "vae" = Some (DStr name)
    /\ contains "," name = false /\ contains ":" name = false.
Proof.
  exact (proj2 (proj2 (@webdata_names_have_no_separators Sample.core
                         (fun _ => DNone) Sample.request sample_attributes
                         sample_shared Sample.world)) _ eq_refl).
Defined.

Lemma webdata_optional_entries_witness :
  dict_get (@a1111_webdata_get_base_param_data Sample.core (fun _ => DNone)
              Sample.request sample_attributes sample_shared Sample.world)
    "restorefaces" = Some DNone.
Proof.
  exact (proj1 (proj2 (proj2 (@webdata_optional_entries Sample.core
                                (fun _ => DNone) Sample.request sample_attributes
                                sample_shared Sample.world))) eq_refl).
Defined.

(** ** The table of modes *)

(** All the modes the script can register, the two extensions included,
    have different names, also once the names are cleaned, so no
    registration meets a name already taken; a mode has bounds only if
    its values are integers or decimals, and a lower bound is never above
    the upper bound; the modes skipped in a dry run are Model, VAE,
    ClipSkip and HighRes Checkpoint. *)
Theorem registered_modes_well_formed :
  let all := Modes.registered_modes ++ Modes.dynamic_thresholding_modes
             ++ Modes.controlnet_modes in
  NoDup (Sample.clean_mode <$> all.*1)
  /\ Forall (fun m => match Modes.min m.2, Modes.max m.2 with
                      | Some lo, Some hi => lo <= hi
                      | _, _ => True
                      end
                      /\ (Modes.type m.2 = Modes.Text \/ Modes.type m.2 = Modes.Boolean ->
                          Modes.min m.2 = None /\ Modes.max m.2 = None)) all
  /\ (filter (fun m => Modes.dry m.2 = false) all).*1
     = ["Model"; "VAE"; "ClipSkip"; "HighRes Checkpoint"].
Proof.
  split; [|split].
  - apply (bool_decide_unpack _). vm_compute. exact I.
  - repeat (constructor;
            [simpl; split;
             [first [lia | exact I]
             | intros [Ht|Ht]; first [discriminate Ht | split; reflexivity]]|]).
    constructor.
  - reflexivity.
Qed.
